(** * Stocks-prices: investment simulations over historical price files

    A shallow embedding of the two scripts of the repository:

    - [main.py]: the lump-sum simulation (module [LumpSum]): every
      instrument of the basket is bought once, on [purchase_date], with an
      equal share of [total_budget], and valued at the close price of the
      last row of its file;
    - [test.py]: the monthly recurring simulation (module [Recurring]):
      from [start_investment_date] on, an equal share of [monthly_budget]
      is invested at every month start of the instrument's data range.

    Modelling conventions.

    - Numbers.  The scripts compute with binary64 floats (Python [float],
      numpy [float64]).  They are embedded as exact rationals [Q]: rounding,
      infinities and NaN are outside the model.  A numpy division by zero
      yields [inf] or [nan] (with a warning, no exception), which [Q] cannot
      hold, so statements about the value of such a quotient assume a
      nonzero divisor.  Python's own [/] on Python numbers raises
      [ZeroDivisionError]; where the scripts use it, the embedding keeps the
      exception ([py_truediv]).
    - Dates.  [pd.to_datetime(..., errors='coerce', utc=True)] turns the
      [Date] column into UTC timestamps, or [NaT] where parsing fails.  A
      raw row carries the outcome of that step: [Some] timestamp or [None]
      for [NaT].  A timestamp is a UTC calendar day with the time of that
      day in nanoseconds; a cell that holds a date only is a [midnight].
    - Columns.  [Low] and [Close] hold numbers.  A column with text cells,
      on which the arithmetic of the scripts raises [TypeError] (caught for
      the instrument by the [except] clause), is outside the model.
    - pandas.  [pd.date_range(..., freq='MS')] treats an end that is not a
      month start differently across pandas versions; the recurring
      simulation takes the behaviour as a parameter ([end_rollback]), and
      every statement about it holds for both.
    - Data frames are lists of rows in positional order; the [results]
      dictionaries are association lists in insertion order. *)

From Stdlib Require Import List ZArith QArith Bool String Ascii Lia.
From Stdlib Require Import Permutation Sorted.
Import ListNotations.

Local Open Scope Z_scope.

(** ** Timestamps *)

(** A UTC instant: the calendar day and the nanoseconds since its midnight. *)
Record Timestamp : Type := mkTimestamp { year : Z; month : Z; day : Z; time : Z }.

(** The timestamp of a cell that holds a date only. *)
Definition midnight (y m d : Z) : Timestamp := mkTimestamp y m d 0.

Definition ns_per_hour : Z := 3600000000000.
Definition ns_per_day : Z := 24 * ns_per_hour.

(** The timestamp of a day at a full hour, UTC. *)
Definition at_hour (y m d h : Z) : Timestamp := mkTimestamp y m d (h * ns_per_hour).

(** Chronological order, as [<=], [<] and [==] on timestamps. *)
Definition ts_leb (a b : Timestamp) : bool :=
  (year a <? year b)
  || ((year a =? year b)
      && ((month a <? month b)
          || ((month a =? month b)
              && ((day a <? day b) || ((day a =? day b) && (time a <=? time b)))))).

Definition ts_ltb (a b : Timestamp) : bool := negb (ts_leb b a).

Definition ts_eqb (a b : Timestamp) : bool :=
  (year a =? year b) && (month a =? month b) && (day a =? day b)
  && (time a =? time b).

(** The two instants fall on the same UTC calendar day. *)
Definition same_day (a b : Timestamp) : bool :=
  (year a =? year b) && (month a =? month b) && (day a =? day b).

Definition is_leap (y : Z) : bool :=
  ((y mod 4 =? 0) && negb (y mod 100 =? 0)) || (y mod 400 =? 0).

Definition days_in_month (y m : Z) : Z :=
  if m =? 2 then (if is_leap y then 29 else 28)
  else if (m =? 4) || (m =? 6) || (m =? 9) || (m =? 11) then 30
  else 31.

(** A timestamp that names an instant of a day of the calendar. *)
Definition valid_ts (t : Timestamp) : Prop :=
  1 <= month t <= 12 /\ 1 <= day t <= days_in_month (year t) (month t)
  /\ 0 <= time t < ns_per_day.

(** [Timestamp.strftime('%Y-%m-%d')]: the UTC calendar day, as zero-padded
    year (four digits, the range of pandas timestamps is 1677..2262), month
    and day. *)
Definition digit (n : Z) : ascii := ascii_of_nat (48 + Z.to_nat (n mod 10)).

Definition pad2 (n : Z) : string :=
  String (digit (n / 10)) (String (digit n) EmptyString).

Definition pad4 (n : Z) : string :=
  String (digit (n / 1000)) (String (digit (n / 100)) (pad2 n)).

Definition strftime_Ymd (t : Timestamp) : string :=
  (pad4 (year t) ++ "-" ++ pad2 (month t) ++ "-" ++ pad2 (day t))%string.

(** ** Rows and frames *)

(** A row of the frame after [pd.to_datetime]: [None] is [NaT]. *)
Record RawRow : Type := mkRawRow { raw_Date : option Timestamp; raw_Low : Q; raw_Close : Q }.

(** A row whose date parsed. *)
Record Row : Type := mkRow { Date : Timestamp; Low : Q; Close : Q }.

(** [data.dropna(subset=['Date'])] *)
Fixpoint dropna (data : list RawRow) : list Row :=
  match data with
  | [] => []
  | r :: rest =>
      match raw_Date r with
      | Some t => mkRow t (raw_Low r) (raw_Close r) :: dropna rest
      | None => dropna rest
      end
  end.

(** What the script finds for [<stock>.csv] in the data directory. *)
Inductive CsvFile : Type :=
| FileMissing                      (* os.path.exists(file_path) is false *)
| Unreadable                       (* pd.read_csv raises *)
| MissingColumns                   (* Date, Low or Close is not a column *)
| Frame (rows : list RawRow).

Record DataDir : Type := mkDataDir {
  dir_has_files : bool;            (* the directory exists and is not empty *)
  csv_of : string -> CsvFile
}.

(** ** Python exceptions and division *)

(** [ZeroDivisionError] is raised by Python's division.  [EmptyBasketError]
    is the error the specification names for an empty basket; no statement
    of either script raises it. *)
Inductive PyExn : Type := ZeroDivisionError | EmptyBasketError.

Inductive PyResult (A : Type) : Type :=
| Return (a : A)
| Raise (e : PyExn).
Arguments Return {A} a.
Arguments Raise {A} e.

(** [a / b] on Python numbers. *)
Definition py_truediv (a b : Q) : PyResult Q :=
  if Qeq_bool b 0 then Raise ZeroDivisionError else Return (a / b)%Q.

Definition Qlt_bool (a b : Q) : bool := negb (Qle_bool b a).

(** ** Insertion-ordered dictionaries *)

Section Dict.
Context {V : Type}.

Definition dict : Type := list (string * V).

Fixpoint dict_get (d : dict) (k : string) : option V :=
  match d with
  | [] => None
  | (k', v) :: rest => if String.eqb k' k then Some v else dict_get rest k
  end.

(** [d[k] = v]: an existing key keeps its position. *)
Fixpoint dict_set (d : dict) (k : string) (v : V) : dict :=
  match d with
  | [] => [(k, v)]
  | (k', v') :: rest =>
      if String.eqb k' k then (k', v) :: rest else (k', v') :: dict_set rest k v
  end.

Definition dict_keys (d : dict) : list string := map fst d.
End Dict.
Arguments dict V : clear implicits.

(** ** Stable sorting

    [sorted(..., key=..., reverse=True)] and [DataFrame.sort_values] are
    embedded by one stable insertion sort.  [before y x] says that [y] has
    to come strictly before [x]; an element is inserted in front of the
    first element that does not have to precede it, so elements that
    compare equal keep their input order. *)

Section StableSort.
Context {A : Type}.
Variable before : A -> A -> bool.

Fixpoint insert_stable (x : A) (l : list A) : list A :=
  match l with
  | [] => [x]
  | y :: rest => if before y x then y :: insert_stable x rest else x :: l
  end.

Definition stable_sort (l : list A) : list A := fold_right insert_stable [] l.
End StableSort.

(** [data.sort_values(by='Date')]: ascending by date.  pandas' default
    sort kind leaves the relative order of rows with equal dates open; the
    embedding keeps their input order. *)
Definition sort_values_by_Date (data : list Row) : list Row :=
  stable_sort (fun y x => ts_ltb (Date y) (Date x)) data.

(** ** The lump-sum simulation: main.py *)

Module LumpSum.

(** The value stored in [results[stock_name]]. *)
Record Outcome : Type := mkOutcome {
  shares_bought : Q;
  purchase_price : Q;
  selling_price : Q;
  profit : Q;
  profit_percentage : Q
}.

Inductive SkipReason : Type :=
| FileNotFound | ColumnsNotFound | PurchaseDateNotFound | ErrorProcessing.

Inductive StockResult : Type :=
| Skipped (why : SkipReason)
| Recorded (o : Outcome).

(** Line 24: [split_percentage = 1 / len(target_files)]. *)
Definition split_percentage (target_files : list string) : PyResult Q :=
  py_truediv 1 (inject_Z (Z.of_nat (List.length target_files))).

(** Lines 59-95, on the frame read from the file. *)
Definition simulate (rows : list RawRow) (budget_for_stock : Q)
    (purchase_date : string) : StockResult :=
  let data := dropna rows in
  let purchase_row :=
    filter (fun r => String.eqb (strftime_Ymd (Date r)) purchase_date) data in
  match purchase_row with
  | [] => Skipped PurchaseDateNotFound
  | first :: _ =>
      let purchase_price := Low first in
      let last_row := last data first in
      let selling_price := Close last_row in
      let shares_bought := (budget_for_stock / purchase_price)%Q in
      let profit := (shares_bought * selling_price - budget_for_stock)%Q in
      let profit_percentage := (profit / budget_for_stock * 100)%Q in
      Recorded (mkOutcome shares_bought purchase_price selling_price
                          profit profit_percentage)
  end.

(** Lines 40-101: the body of the loop for one instrument. *)
Definition process_stock (dir : DataDir) (total_budget split : Q)
    (purchase_date stock_name : string) : StockResult :=
  match csv_of dir stock_name with
  | FileMissing => Skipped FileNotFound
  | Unreadable => Skipped ErrorProcessing
  | MissingColumns => Skipped ColumnsNotFound
  | Frame rows => simulate rows (total_budget * split)%Q purchase_date
  end.

(** Lines 39-101: the loop over [target_files], filling [results]. *)
Definition process_all (dir : DataDir) (total_budget split : Q)
    (purchase_date : string) (target_files : list string) : dict Outcome :=
  fold_left
    (fun results stock_name =>
       match process_stock dir total_budget split purchase_date stock_name with
       | Recorded o => dict_set results stock_name o
       | Skipped _ => results
       end)
    target_files [].

(** Line 104: [sum(result['Profit'] for result in results.values())]. *)
Definition sum_profit (results : dict Outcome) : Q :=
  fold_left (fun acc kv => (acc + profit (snd kv))%Q) results 0%Q.

(** Line 108: [sorted(results.items(), key=..., reverse=True)]. *)
Definition sorted_results (results : dict Outcome) : list (string * Outcome) :=
  stable_sort (fun y x => Qlt_bool (profit (snd x)) (profit (snd y))) results.

Record Report : Type := mkReport {
  results : dict Outcome;
  total_profit : Q;
  total_profit_percent : Q;
  ranking : list (string * Outcome)
}.

Inductive RunResult : Type :=
| Crashed (e : PyExn)            (* uncaught exception at top level *)
| Exited                         (* "No files found in the data directory." *)
| Finished (r : Report).

(** Line 105: [total_profit / total_budget].  With no result the sum is
    the Python integer 0 and the division is Python's; otherwise the sum
    is a numpy scalar. *)
Definition total_percent (results : dict Outcome) (total_profit total_budget : Q)
  : PyResult Q :=
  match results with
  | [] =>
      match py_truediv total_profit total_budget with
      | Return q => Return (q * 100)%Q
      | Raise e => Raise e
      end
  | _ :: _ => Return (total_profit / total_budget * 100)%Q
  end.

(** The whole script. *)
Definition run (dir : DataDir) (target_files : list string) (total_budget : Q)
    (purchase_date : string) : RunResult :=
  match split_percentage target_files with
  | Raise e => Crashed e
  | Return split =>
      if negb (dir_has_files dir) then Exited
      else
        let results := process_all dir total_budget split purchase_date target_files in
        let total_profit := sum_profit results in
        match total_percent results total_profit total_budget with
        | Raise e => Crashed e
        | Return pct =>
            Finished (mkReport results total_profit pct (sorted_results results))
        end
  end.

End LumpSum.

(** ** The monthly recurring simulation: test.py *)

Module Recurring.

(** The value stored in [results[stock_name]]. *)
Record Outcome : Type := mkOutcome {
  total_shares : Q;
  total_investment : Q;
  final_price : Q;
  profit : Q;
  profit_percentage : Q
}.

(** An entry of [investment_history[stock_name]]. *)
Record Purchase : Type := mkPurchase {
  purchase_Date : Timestamp;
  purchase_shares : Q;
  purchase_Price : Q
}.

Inductive SkipReason : Type :=
| FileNotFound | ColumnsNotFound | NoDataAfterStart | ErrorProcessing.

Inductive StockResult : Type :=
| Skipped (why : SkipReason)
| Recorded (o : Outcome).

(** Line 12: [split_percentage = 1 / len(target_files)]. *)
Definition split_percentage (target_files : list string) : PyResult Q :=
  py_truediv 1 (inject_Z (Z.of_nat (List.length target_files))).

(** *** [pd.date_range(start, end, freq='MS')]

    The month-start offset keeps the time of day.  A start that is not on
    the first day of a month is rolled forward to the first day of the next
    month; then timestamps one calendar month apart are produced while they
    do not exceed [end].  Where the start is on a first day of a month and
    the end is not, some pandas versions first roll the end back to the
    first day of its month ([end_rollback = true]) and others leave it
    ([end_rollback = false]). *)

(** [MonthBegin.is_on_offset] *)
Definition is_on_offset (t : Timestamp) : bool := day t =? 1.

(** [t + MonthBegin(1)]: the first day of the next month, at the same time. *)
Definition next_month_start (t : Timestamp) : Timestamp :=
  if month t =? 12 then mkTimestamp (year t + 1) 1 1 (time t)
  else mkTimestamp (year t) (month t + 1) 1 (time t).

(** [MonthBegin.rollforward] *)
Definition rollforward (t : Timestamp) : Timestamp :=
  if is_on_offset t then t else next_month_start t.

(** [MonthBegin.rollback]: the first day of the month, at the same time. *)
Definition rollback (t : Timestamp) : Timestamp :=
  if is_on_offset t then t else mkTimestamp (year t) (month t) 1 (time t).

(** [while cur <= end: yield cur; if cur == end: break; cur = cur + offset] *)
Fixpoint generate_range (fuel : nat) (cur end_date : Timestamp) : list Timestamp :=
  match fuel with
  | O => []
  | S fuel' =>
      if ts_leb cur end_date then
        cur :: (if ts_eqb cur end_date then []
                else generate_range fuel' (next_month_start cur) end_date)
      else []
  end.

Definition month_index (t : Timestamp) : Z := year t * 12 + (month t - 1).

(** The loop runs once per month start of the range and once more to leave. *)
Definition range_fuel (start_date end_date : Timestamp) : nat :=
  Z.to_nat (month_index end_date - month_index start_date + 2).

Section PandasVersion.
Variable end_rollback : bool.

(** The end the loop runs to. *)
Definition range_end (start_date end_date : Timestamp) : Timestamp :=
  if is_on_offset start_date && end_rollback then rollback end_date else end_date.

Definition date_range_MS (start_date end_date : Timestamp) : list Timestamp :=
  generate_range (range_fuel start_date end_date) (rollforward start_date)
                 (range_end start_date end_date).

(** *** One instrument *)

(** Line 48: [data[data['Date'] >= start_investment_date]]. *)
Definition from_start (start_investment_date : Timestamp) (data : list Row) : list Row :=
  filter (fun r => ts_leb start_investment_date (Date r)) data.

(** [frame.iloc[-1:]]: the last row, or an empty frame. *)
Fixpoint iloc_last (data : list Row) : option Row :=
  match data with
  | [] => None
  | [r] => Some r
  | _ :: rest => iloc_last rest
  end.

(** Line 67: [data[data['Date'] <= invest_date].iloc[-1:]]. *)
Definition available_row (data : list Row) (invest_date : Timestamp) : option Row :=
  iloc_last (filter (fun r => ts_leb (Date r) invest_date) data).

(** Lines 55-59: the investment dates of a non-empty frame. *)
Definition monthly_dates (data : list Row) : list Timestamp :=
  match data, iloc_last data with
  | first :: _, Some last_row => date_range_MS (Date first) (Date last_row)
  | _, _ => []
  end.

(** The running totals of lines 62-63 and the instrument's history. *)
Record Totals : Type := mkTotals {
  acc_shares : Q;
  acc_investment : Q;
  acc_history : list Purchase
}.

(** Lines 66-83: the body of the loop over [monthly_dates]. *)
Definition invest (data : list Row) (monthly_budget split : Q)
    (acc : Totals) (invest_date : Timestamp) : Totals :=
  match available_row data invest_date with
  | None => acc
  | Some row =>
      let low_price := Low row in
      let monthly_allocation := (monthly_budget * split)%Q in
      let shares_bought := (monthly_allocation / low_price)%Q in
      mkTotals (acc_shares acc + shares_bought)%Q
               (acc_investment acc + monthly_allocation)%Q
               (acc_history acc ++ [mkPurchase invest_date shares_bought low_price])
  end.

(** Lines 88 and 107: [(p / t) * 100 if t > 0 else 0]. *)
Definition percent_of (p t : Q) : PyResult Q :=
  if Qlt_bool 0 t then
    match py_truediv p t with
    | Return q => Return (q * 100)%Q
    | Raise e => Raise e
    end
  else Return 0%Q.

(** Lines 44-97 on the frame read from the file: the result for the
    instrument and the purchases appended to its history. *)
Definition simulate (rows : list RawRow) (monthly_budget split : Q)
    (start_investment_date : Timestamp) : StockResult * list Purchase :=
  let data := from_start start_investment_date (sort_values_by_Date (dropna rows)) in
  match data, iloc_last data with
  | _ :: _, Some last_row =>
      let acc :=
        fold_left (invest data monthly_budget split) (monthly_dates data)
                  (mkTotals 0 0 []) in
      let final_close_price := Close last_row in
      let profit := (acc_shares acc * final_close_price - acc_investment acc)%Q in
      match percent_of profit (acc_investment acc) with
      | Return profit_percentage =>
          (Recorded (mkOutcome (acc_shares acc) (acc_investment acc)
                               final_close_price profit profit_percentage),
           acc_history acc)
      | Raise _ => (Skipped ErrorProcessing, acc_history acc)
      end
  | _, _ => (Skipped NoDataAfterStart, [])
  end.

(** Lines 27-100: the body of the loop for one instrument. *)
Definition process_stock (dir : DataDir) (monthly_budget split : Q)
    (start_investment_date : Timestamp) (stock_name : string)
  : StockResult * list Purchase :=
  match csv_of dir stock_name with
  | FileMissing => (Skipped FileNotFound, [])
  | Unreadable => (Skipped ErrorProcessing, [])
  | MissingColumns => (Skipped ColumnsNotFound, [])
  | Frame rows => simulate rows monthly_budget split start_investment_date
  end.

(** *** The whole script *)

(** [investment_history[stock_name].append(...)] for a run of purchases. *)
Definition history_extend (h : dict (list Purchase)) (stock_name : string)
    (events : list Purchase) : dict (list Purchase) :=
  match dict_get h stock_name with
  | Some old => dict_set h stock_name (old ++ events)
  | None => h
  end.

(** Line 19: [{stock: [] for stock in target_files}]. *)
Definition history_init (target_files : list string) : dict (list Purchase) :=
  fold_left (fun h stock => dict_set h stock []) target_files [].

(** Lines 26-100: the loop over [target_files]. *)
Definition process_all (dir : DataDir) (monthly_budget split : Q)
    (start_investment_date : Timestamp) (target_files : list string)
  : dict Outcome * dict (list Purchase) :=
  fold_left
    (fun state stock_name =>
       let '(res, events) :=
         process_stock dir monthly_budget split start_investment_date stock_name in
       let history := history_extend (snd state) stock_name events in
       match res with
       | Recorded o => (dict_set (fst state) stock_name o, history)
       | Skipped _ => (fst state, history)
       end)
    target_files
    ([], history_init target_files).

Definition sum_profit (results : dict Outcome) : Q :=
  fold_left (fun acc kv => (acc + profit (snd kv))%Q) results 0%Q.

Definition sum_investment (results : dict Outcome) : Q :=
  fold_left (fun acc kv => (acc + total_investment (snd kv))%Q) results 0%Q.

(** Line 110: [sorted(results.items(), key=..., reverse=True)]. *)
Definition sorted_results (results : dict Outcome) : list (string * Outcome) :=
  stable_sort (fun y x => Qlt_bool (profit (snd x)) (profit (snd y))) results.

Record Report : Type := mkReport {
  results : dict Outcome;
  investment_history : dict (list Purchase);
  total_profit : Q;
  total_invested : Q;
  total_profit_percent : Q;
  ranking : list (string * Outcome)
}.

Inductive RunResult : Type :=
| Crashed (e : PyExn)
| Exited
| Finished (r : Report).

Definition run (dir : DataDir) (target_files : list string) (monthly_budget : Q)
    (start_investment_date : Timestamp) : RunResult :=
  match split_percentage target_files with
  | Raise e => Crashed e
  | Return split =>
      if negb (dir_has_files dir) then Exited
      else
        let '(results, history) :=
          process_all dir monthly_budget split start_investment_date target_files in
        let total_profit := sum_profit results in
        let total_investment := sum_investment results in
        match percent_of total_profit total_investment with
        | Raise e => Crashed e
        | Return pct =>
            Finished (mkReport results history total_profit total_investment pct
                               (sorted_results results))
        end
  end.

End PandasVersion.

End Recurring.

(** * Inputs and notions of the statements *)

Local Open Scope Q_scope.

(** ** Example inputs *)

(** The example series of the specification, in date order. *)
Definition example_series : list RawRow :=
  [ mkRawRow (Some (midnight 2024 3 1)) 90 95;
    mkRawRow (Some (midnight 2024 6 1)) 100 110 ].

(** A price file listing the newest day first. *)
Definition newest_first_series : list RawRow :=
  [ mkRawRow (Some (midnight 2024 6 1)) 100 110;
    mkRawRow (Some (midnight 2024 3 1)) 90 95 ].

(** A price file for the recurring simulation: rows out of date order, one
    unparsable date, one day before the start of the investment. *)
Definition example_history : list RawRow :=
  [ mkRawRow (Some (midnight 2024 4 30)) 100 104;
    mkRawRow (Some (midnight 2024 2 27)) 80 85;
    mkRawRow None 1 1;
    mkRawRow (Some (midnight 2024 3 1)) 90 95;
    mkRawRow (Some (midnight 2024 5 15)) 105 110;
    mkRawRow (Some (midnight 2024 4 1)) 100 102 ].

Definition example_start : Timestamp := midnight 2024 3 1.

(** A price file whose low on the purchase date is negative. *)
Definition negative_low_series : list RawRow :=
  [ mkRawRow (Some (midnight 2024 3 1)) (-5) 95;
    mkRawRow (Some (midnight 2024 6 1)) 100 110 ].

(** A file whose rows all fall in one month after its first day: no month
    start lies in the data range. *)
Definition one_month_history : list RawRow :=
  [ mkRawRow (Some (midnight 2024 3 4)) 90 95;
    mkRawRow (Some (midnight 2024 3 28)) 100 110 ].

(** A data directory: AAPL lacks the purchase date, MSFT has it, TSLA has no
    file. *)
Definition example_dir : DataDir :=
  mkDataDir true
    (fun stock =>
       if String.eqb stock "AAPL" then Frame one_month_history
       else if String.eqb stock "MSFT" then Frame example_series
       else FileMissing).

(** A price file whose first row is at 05:00 UTC and whose last row, on a
    first day of a month, is at 04:00 UTC (midnight in New York, in winter
    and in summer). *)
Definition two_offsets_history : list RawRow :=
  [ mkRawRow (Some (at_hour 2024 3 1 5)) 90 95;
    mkRawRow (Some (at_hour 2024 5 15 4)) 100 104;
    mkRawRow (Some (at_hour 2024 7 1 4)) 105 110 ].


(** ** Notions used by the statements *)

(** The order of the UTC calendar days of two timestamps. *)
Definition day_leb (a b : Timestamp) : bool :=
  (year a <? year b)%Z
  || ((year a =? year b)%Z
      && ((month a <? month b)%Z || ((month a =? month b)%Z && (day a <=? day b)%Z))).

(** In a list sorted with [before], [a] may stand in front of [b]. *)
Definition in_order {A : Type} (before : A -> A -> bool) (a b : A) : Prop :=
  before b a = false.

(** [a] is dated no later than [b]. *)
Definition date_order (a b : Row) : Prop := ts_leb (Date a) (Date b) = true.

(** The loop [for k in keys: if f(k) gives v: d[k] = v]. *)
Definition collect {V : Type} (f : string -> option V) (keys : list string)
    (d0 : dict V) : dict V :=
  fold_left (fun d k => match f k with Some v => dict_set d k v | None => d end)
            keys d0.

Definition yields {V : Type} (f : string -> option V) (k : string) : bool :=
  match f k with Some _ => true | None => false end.

Definition lump_recorded (r : LumpSum.StockResult) : option LumpSum.Outcome :=
  match r with LumpSum.Recorded o => Some o | LumpSum.Skipped _ => None end.

Definition recurring_recorded (r : Recurring.StockResult * list Recurring.Purchase)
  : option Recurring.Outcome :=
  match fst r with Recurring.Recorded o => Some o | Recurring.Skipped _ => None end.

(** The comparison of [sorted(..., key=key, reverse=True)]. *)
Definition key_before {A : Type} (key : A -> Q) (y x : A) : bool :=
  Qlt_bool (key x) (key y).

(** The sum of a list of numbers. *)
Definition Qsum (l : list Q) : Q := fold_right Qplus 0 l.

(** * Properties *)

(** ** Lists *)

Lemma filter_first_match {A : Type} (f : A -> bool) (pre post : list A) (p : A) :
  Forall (fun r => f r = false) pre -> f p = true ->
  filter f (pre ++ p :: post) = p :: filter f post.
Proof.
  intros Hpre Hp. induction Hpre as [|r pre Hr _ IH]; simpl.
  - now rewrite Hp.
  - now rewrite Hr.
Qed.

Lemma filter_none {A : Type} (f : A -> bool) (l : list A) :
  Forall (fun r => f r = false) l -> filter f l = [].
Proof.
  induction 1 as [|r l Hr _ IH]; simpl; [reflexivity|]. now rewrite Hr.
Qed.

(** ** The lump-sum simulation of one instrument *)

(** C1.  Lump-sum simulation.  Let [p] be the point of the series whose
    date is [purchase_date] (the first one, should several rows carry that
    date) and [last_row] the last point of the series, the last row of the
    frame.  Then the simulator records shares = allocation / low of [p],
    selling price = close of [last_row], profit = shares * selling price -
    allocation and profit % = profit / allocation * 100 (the two divisors
    being nonzero, see the conventions on numbers).  On the example series
    with allocation 100 and purchase date 2024-03-01: shares = 100/90,
    selling price = 110, profit = (100/90)*110 - 100 = 200/9, which lies
    within 0.01 of 22.22, and so does the profit percentage. *)
Theorem lump_sum_simulate_correct :
  (forall (rows : list RawRow) (allocation : Q) (purchase_date : string)
          (pre post front : list Row) (p last_row : Row),
      dropna rows = pre ++ p :: post ->
      Forall (fun r => strftime_Ymd (Date r) <> purchase_date) pre ->
      strftime_Ymd (Date p) = purchase_date ->
      dropna rows = front ++ [last_row] ->
      ~ Low p == 0 -> ~ allocation == 0 ->
      LumpSum.simulate rows allocation purchase_date =
      LumpSum.Recorded
        (LumpSum.mkOutcome
           (allocation / Low p)
           (Low p)
           (Close last_row)
           (allocation / Low p * Close last_row - allocation)
           ((allocation / Low p * Close last_row - allocation) / allocation * 100)))
  /\ (exists o : LumpSum.Outcome,
        LumpSum.simulate example_series 100 "2024-03-01" = LumpSum.Recorded o
        /\ LumpSum.shares_bought o == 100 / 90
        /\ LumpSum.selling_price o == 110
        /\ LumpSum.profit o == (100 / 90) * 110 - 100
        /\ LumpSum.profit o == 200 # 9
        /\ 22.22 <= LumpSum.profit o <= 22.23
        /\ LumpSum.profit_percentage o == LumpSum.profit o / 100 * 100
        /\ 22.22 <= LumpSum.profit_percentage o <= 22.23).
Proof.
  split.
  - intros rows allocation purchase_date pre post front p last_row
           Hsplit Hpre Hp Hlast _ _.
    unfold LumpSum.simulate.
    assert (Hlast' : forall d, last (dropna rows) d = last_row).
    { intro d. rewrite Hlast. apply last_last. }
    rewrite Hsplit at 1.
    rewrite filter_first_match.
    + now rewrite !Hlast'.
    + eapply Forall_impl; [|exact Hpre]. intros r Hr. simpl in Hr.
      now apply String.eqb_neq.
    + now apply String.eqb_eq.
  - eexists. split; [reflexivity|]. simpl.
    repeat split; try reflexivity; try (vm_compute; discriminate).
Qed.

(** The example series is an instance of the general statement. *)
Lemma lump_sum_simulate_correct_witness :
  LumpSum.simulate example_series 100 "2024-03-01" =
  LumpSum.Recorded
    (LumpSum.mkOutcome (100 / 90) 90 110 (100 / 90 * 110 - 100)
                       ((100 / 90 * 110 - 100) / 100 * 100)).
Proof.
  apply (proj1 lump_sum_simulate_correct example_series 100 "2024-03-01"%string
           [] [mkRow (midnight 2024 6 1) 100 110]
           [mkRow (midnight 2024 3 1) 90 95]
           (mkRow (midnight 2024 3 1) 90 95)
           (mkRow (midnight 2024 6 1) 100 110)).
  - reflexivity.
  - constructor.
  - reflexivity.
  - reflexivity.
  - vm_compute; discriminate.
  - vm_compute; discriminate.
Defined.

(** C2.  The lump-sum script does not sort the frame: the selling price is
    the close of the last row in file order.  On a file that lists
    2024-06-01 (close 110) before 2024-03-01 (close 95) the selling price is
    95, while the row with the greatest date closes at 110. *)
Theorem lump_sum_selling_price_follows_file_order :
  exists (o : LumpSum.Outcome) (latest : Row),
    LumpSum.simulate newest_first_series 100 "2024-03-01" = LumpSum.Recorded o
    /\ LumpSum.selling_price o = 95
    /\ In latest (dropna newest_first_series)
    /\ (forall r, In r (dropna newest_first_series) ->
                  ts_leb (Date r) (Date latest) = true)
    /\ Close latest = 110
    /\ ~ LumpSum.selling_price o == Close latest.
Proof.
  eexists. exists (mkRow (midnight 2024 6 1) 100 110).
  split; [reflexivity|]. simpl.
  repeat split; auto.
  - intros r [<-|[<-|[]]]; reflexivity.
  - vm_compute; discriminate.
Qed.

(** ** Order on timestamps *)

Lemma ts_leb_iff (a b : Timestamp) :
  ts_leb a b = true <->
  (year a < year b
   \/ (year a = year b
       /\ (month a < month b
           \/ (month a = month b
               /\ (day a < day b \/ (day a = day b /\ time a <= time b))))))%Z.
Proof.
  unfold ts_leb.
  repeat rewrite ?orb_true_iff, ?andb_true_iff.
  rewrite !Z.ltb_lt, !Z.eqb_eq, Z.leb_le. tauto.
Qed.

Lemma ts_leb_false_iff (a b : Timestamp) :
  ts_leb a b = false <->
  (year b < year a
   \/ (year a = year b
       /\ (month b < month a
           \/ (month a = month b
               /\ (day b < day a \/ (day a = day b /\ time b < time a))))))%Z.
Proof.
  rewrite <- not_true_iff_false, ts_leb_iff. lia.
Qed.

Lemma ts_eqb_iff (a b : Timestamp) : ts_eqb a b = true <-> a = b.
Proof.
  unfold ts_eqb. rewrite !andb_true_iff, !Z.eqb_eq.
  destruct a, b; simpl. split.
  - intros [[[-> ->] ->] ->]. reflexivity.
  - intros H. injection H as -> -> -> ->. auto.
Qed.

(** Turns the comparisons of timestamps in the context and the goal into
    linear arithmetic over their fields. *)
Ltac ts_arith :=
  unfold ts_ltb in *;
  rewrite ?negb_true_iff, ?negb_false_iff in *;
  repeat match goal with
         | H : ts_leb _ _ = true |- _ => apply ts_leb_iff in H
         | H : ts_leb _ _ = false |- _ => apply ts_leb_false_iff in H
         | |- ts_leb _ _ = true => apply ts_leb_iff
         | |- ts_leb _ _ = false => apply ts_leb_false_iff
         end;
  simpl in *; try lia.

Lemma ts_leb_refl (a : Timestamp) : ts_leb a a = true.
Proof. ts_arith. Qed.

Lemma ts_leb_trans (a b c : Timestamp) :
  ts_leb a b = true -> ts_leb b c = true -> ts_leb a c = true.
Proof. intros H1 H2. ts_arith. Qed.

Lemma ts_leb_total (a b : Timestamp) : ts_leb a b = false -> ts_leb b a = true.
Proof. intros H. ts_arith. Qed.

Lemma ts_leb_antisym (a b : Timestamp) :
  ts_leb a b = true -> ts_leb b a = true -> a = b.
Proof.
  intros H1 H2. destruct a as [y1 m1 d1 t1], b as [y2 m2 d2 t2]. ts_arith.
  assert (y1 = y2 /\ m1 = m2 /\ d1 = d2 /\ t1 = t2) as (-> & -> & -> & ->) by lia.
  reflexivity.
Qed.

Lemma same_day_iff (a b : Timestamp) :
  same_day a b = true <-> (year a = year b /\ month a = month b /\ day a = day b).
Proof.
  unfold same_day. rewrite !andb_true_iff, !Z.eqb_eq. tauto.
Qed.

(** ** The stable sort *)

Section StableSortFacts.
Context {A : Type}.
Variable before : A -> A -> bool.

Hypothesis before_asym : forall a b, before a b = true -> before b a = false.
Hypothesis in_order_trans :
  forall a b c, in_order before a b -> in_order before b c -> in_order before a c.

Lemma insert_stable_perm (x : A) (l : list A) :
  Permutation (insert_stable before x l) (x :: l).
Proof.
  induction l as [|y l IH]; simpl; [reflexivity|].
  destruct (before y x); [|reflexivity].
  rewrite IH. apply perm_swap.
Qed.

Lemma stable_sort_perm (l : list A) : Permutation (stable_sort before l) l.
Proof.
  induction l as [|x l IH]; simpl; [reflexivity|].
  rewrite insert_stable_perm. now constructor.
Qed.

Lemma insert_stable_sorted (x : A) (l : list A) :
  StronglySorted (in_order before) l ->
  StronglySorted (in_order before) (insert_stable before x l).
Proof.
  induction 1 as [|y l Hl IH Hy]; simpl.
  - repeat constructor.
  - destruct (before y x) eqn:Hyx.
    + constructor; [exact IH|].
      eapply Permutation_Forall; [symmetry; apply insert_stable_perm|].
      constructor; [|exact Hy]. now apply before_asym.
    + constructor; [now constructor|].
      constructor; [exact Hyx|].
      eapply Forall_impl; [|exact Hy]. intros z Hz.
      now apply in_order_trans with y.
Qed.

Lemma stable_sort_sorted (l : list A) :
  StronglySorted (in_order before) (stable_sort before l).
Proof.
  induction l as [|x l IH]; simpl; [constructor|].
  now apply insert_stable_sorted.
Qed.

(** Elements that are not ordered against one another keep their input
    order: every selection of pairwise unordered elements is unchanged. *)
Lemma insert_stable_filter (f : A -> bool) (x : A) (l : list A) :
  (forall a b, f a = true -> f b = true -> before a b = false) ->
  filter f (insert_stable before x l) = filter f (x :: l).
Proof.
  intros Hf. induction l as [|y l IH]; [reflexivity|].
  simpl insert_stable. destruct (before y x) eqn:Hyx; [|reflexivity].
  simpl in *. rewrite IH.
  destruct (f y) eqn:Hfy, (f x) eqn:Hfx; try reflexivity.
  rewrite (Hf y x Hfy Hfx) in Hyx. discriminate.
Qed.

Lemma stable_sort_filter (f : A -> bool) (l : list A) :
  (forall a b, f a = true -> f b = true -> before a b = false) ->
  filter f (stable_sort before l) = filter f l.
Proof.
  intros Hf. induction l as [|x l IH]; [reflexivity|].
  simpl stable_sort. rewrite insert_stable_filter by exact Hf.
  simpl. now rewrite IH.
Qed.

End StableSortFacts.

(** ** Frames sorted by date *)

Lemma StronglySorted_weaken {A : Type} (R R' : A -> A -> Prop) (l : list A) :
  (forall a b, R a b -> R' a b) -> StronglySorted R l -> StronglySorted R' l.
Proof.
  intros HR. induction 1 as [|a l Hl IH Ha]; constructor; auto.
  eapply Forall_impl; [|exact Ha]. auto.
Qed.

Lemma StronglySorted_filter {A : Type} (R : A -> A -> Prop) (f : A -> bool) (l : list A) :
  StronglySorted R l -> StronglySorted R (filter f l).
Proof.
  induction 1 as [|a l Hl IH Ha]; simpl; [constructor|].
  destruct (f a); [|exact IH].
  constructor; [exact IH|].
  apply Forall_forall. intros x Hx. apply filter_In in Hx.
  rewrite Forall_forall in Ha. now apply Ha.
Qed.

Lemma StronglySorted_last {A : Type} (R : A -> A -> Prop) (init : list A) (p : A) :
  StronglySorted R (init ++ [p]) -> Forall (fun q => R q p) init.
Proof.
  induction init as [|a init IH]; simpl; intros H; [constructor|].
  inversion H as [|? ? Hl Ha]; subst.
  constructor; [|now apply IH].
  rewrite Forall_forall in Ha. apply Ha. apply in_or_app. right. now left.
Qed.


Lemma sort_values_perm (data : list Row) :
  Permutation (sort_values_by_Date data) data.
Proof. apply stable_sort_perm. Qed.

Lemma sort_values_sorted (data : list Row) :
  StronglySorted date_order (sort_values_by_Date data).
Proof.
  unfold sort_values_by_Date.
  eapply StronglySorted_weaken; [|apply stable_sort_sorted].
  - unfold in_order, date_order. intros a b H.
    destruct (ts_leb (Date a) (Date b)) eqn:E; [reflexivity|].
    unfold ts_ltb in H. rewrite E in H. discriminate.
  - intros a b H. ts_arith.
  - unfold in_order. intros a b c H1 H2. ts_arith.
Qed.

(** ** [iloc[-1:]] *)

Lemma iloc_last_cons (a b : Row) (l : list Row) :
  Recurring.iloc_last (a :: b :: l) = Recurring.iloc_last (b :: l).
Proof. reflexivity. Qed.

Lemma iloc_last_snoc (init : list Row) (p : Row) :
  Recurring.iloc_last (init ++ [p]) = Some p.
Proof.
  induction init as [|a init IH]; [reflexivity|].
  destruct init as [|b init]; [reflexivity|].
  simpl app in *. rewrite iloc_last_cons. exact IH.
Qed.

Lemma iloc_last_Some (l : list Row) (p : Row) :
  Recurring.iloc_last l = Some p -> exists init, l = init ++ [p].
Proof.
  induction l as [|a l IH]; [discriminate|].
  destruct l as [|b l].
  - simpl. intros [= ->]. now exists [].
  - rewrite iloc_last_cons. intros H. destruct (IH H) as [init ->].
    now exists (a :: init).
Qed.

Lemma iloc_last_nonempty (a : Row) (l : list Row) :
  exists p, Recurring.iloc_last (a :: l) = Some p.
Proof.
  revert a. induction l as [|b l IH]; intros a.
  - now exists a.
  - rewrite iloc_last_cons. apply IH.
Qed.

(** ** Resolution of an investment date *)

Lemma available_row_exists (data : list Row) (g : Timestamp) (r0 : Row) :
  In r0 data -> ts_leb (Date r0) g = true ->
  exists p, Recurring.available_row data g = Some p.
Proof.
  intros Hin Hle. unfold Recurring.available_row.
  assert (H : In r0 (filter (fun r => ts_leb (Date r) g) data))
    by (apply filter_In; auto).
  destruct (filter (fun r => ts_leb (Date r) g) data) as [|a l]; [contradiction|].
  apply iloc_last_nonempty.
Qed.



(** ** Month starts and the date range *)

Lemma next_month_start_day (t : Timestamp) : day (Recurring.next_month_start t) = 1%Z.
Proof. unfold Recurring.next_month_start. now destruct (month t =? 12)%Z. Qed.

Lemma next_month_start_month (t : Timestamp) :
  (1 <= month t <= 12 -> 1 <= month (Recurring.next_month_start t) <= 12)%Z.
Proof.
  unfold Recurring.next_month_start.
  destruct (Z.eqb_spec (month t) 12); simpl; lia.
Qed.

Lemma next_month_start_index (t : Timestamp) :
  (1 <= month t <= 12 ->
   Recurring.month_index (Recurring.next_month_start t) = Recurring.month_index t + 1)%Z.
Proof.
  unfold Recurring.next_month_start, Recurring.month_index.
  destruct (Z.eqb_spec (month t) 12); simpl; lia.
Qed.

Lemma next_month_start_later (t : Timestamp) :
  ts_leb t (Recurring.next_month_start t) = true.
Proof.
  unfold Recurring.next_month_start.
  destruct (Z.eqb_spec (month t) 12); ts_arith.
Qed.

Lemma rollforward_later (t : Timestamp) : ts_leb t (Recurring.rollforward t) = true.
Proof.
  unfold Recurring.rollforward. destruct (Recurring.is_on_offset t).
  - apply ts_leb_refl.
  - apply next_month_start_later.
Qed.

(** Every date the loop yields lies between its starting point and [end]. *)
Lemma generate_range_bounds (fuel : nat) (cur end_date g : Timestamp) :
  In g (Recurring.generate_range fuel cur end_date) ->
  ts_leb cur g = true /\ ts_leb g end_date = true.
Proof.
  revert cur. induction fuel as [|fuel IH]; intros cur; simpl; [contradiction|].
  destruct (ts_leb cur end_date) eqn:Ecur; [|contradiction].
  intros [<-|Hin].
  - split; [apply ts_leb_refl|exact Ecur].
  - destruct (ts_eqb cur end_date); [contradiction|].
    destruct (IH _ Hin) as [H1 H2]. split; [|exact H2].
    eapply ts_leb_trans; [apply next_month_start_later|exact H1].
Qed.

(** Consecutive dates of the loop are one calendar month apart. *)
Lemma generate_range_step (fuel : nat) (cur end_date : Timestamp)
    (l1 l2 : list Timestamp) (a b : Timestamp) :
  Recurring.generate_range fuel cur end_date = l1 ++ a :: b :: l2 ->
  b = Recurring.next_month_start a.
Proof.
  revert cur l1. induction fuel as [|fuel IH]; intros cur l1; simpl.
  - destruct l1; discriminate.
  - destruct (ts_leb cur end_date); [|destruct l1; discriminate].
    destruct (ts_eqb cur end_date).
    + destruct l1 as [|x [|y l1]]; discriminate.
    + destruct l1 as [|x l1]; simpl.
      * intros [= <- H]. destruct fuel as [|fuel']; simpl in H; [discriminate|].
        destruct (ts_leb (Recurring.next_month_start cur) end_date); [|discriminate].
        now injection H as ->.
      * intros [= _ H]. now apply IH in H.
Qed.

Lemma next_month_start_time (t : Timestamp) :
  time (Recurring.next_month_start t) = time t.
Proof. unfold Recurring.next_month_start. now destruct (month t =? 12)%Z. Qed.

(** With the fuel of [range_fuel] the loop yields every month start at the
    time of day of its starting point between that point and [end], so it
    stops on its own condition. *)
Lemma generate_range_In (fuel : nat) (cur end_date g : Timestamp) :
  day cur = 1%Z -> (1 <= month cur <= 12)%Z ->
  (1 <= month end_date <= 12)%Z ->
  (Recurring.month_index end_date - Recurring.month_index cur + 2 <= Z.of_nat fuel)%Z ->
  In g (Recurring.generate_range fuel cur end_date) <->
  (day g = 1%Z /\ (1 <= month g <= 12)%Z /\ time g = time cur
   /\ ts_leb cur g = true /\ ts_leb g end_date = true).
Proof.
  intros Hd Hm He. revert cur Hd Hm.
  induction fuel as [|fuel IH]; intros cur Hd Hm Hfuel.
  - simpl. split; [contradiction|]. intros (Hg1 & Hgm & Hgt & H1 & H2).
    unfold Recurring.month_index in Hfuel.
    pose proof (ts_leb_trans _ _ _ H1 H2) as H3. ts_arith.
  - simpl. destruct (ts_leb cur end_date) eqn:Ecur.
    + destruct (ts_eqb cur end_date) eqn:Eeq.
      * apply ts_eqb_iff in Eeq. subst end_date. split.
        -- intros [<-|[]]. auto using ts_leb_refl.
        -- intros (_ & _ & _ & H1 & H2). left. now apply ts_leb_antisym.
      * simpl. rewrite IH.
        -- rewrite next_month_start_time. split.
           ++ intros [<-|(Hg1 & Hgm & Hgt & H1 & H2)].
              ** auto using ts_leb_refl.
              ** split; [exact Hg1|]. split; [exact Hgm|]. split; [exact Hgt|].
                 split; [|exact H2].
                 eapply ts_leb_trans; [apply next_month_start_later|exact H1].
           ++ intros (Hg1 & Hgm & Hgt & H1 & H2).
              destruct (ts_leb g cur) eqn:Egc.
              ** left. now apply ts_leb_antisym.
              ** right. split; [exact Hg1|]. split; [exact Hgm|].
                 split; [exact Hgt|]. split; [|exact H2].
                 unfold Recurring.next_month_start.
                 destruct (Z.eqb_spec (month cur) 12); ts_arith.
        -- apply next_month_start_day.
        -- now apply next_month_start_month.
        -- rewrite next_month_start_index by exact Hm. lia.
    + split; [contradiction|]. intros (_ & _ & _ & H1 & H2).
      pose proof (ts_leb_trans _ _ _ H1 H2) as H3. congruence.
Qed.

Lemma month_start_valid (g : Timestamp) :
  day g = 1%Z -> (1 <= month g <= 12)%Z -> (0 <= time g < ns_per_day)%Z -> valid_ts g.
Proof.
  intros Hd Hm Ht. unfold valid_ts, days_in_month. rewrite Hd.
  split; [exact Hm|]. split; [|exact Ht].
  destruct (month g =? 2)%Z; [destruct (is_leap (year g)); lia|].
  destruct ((month g =? 4) || (month g =? 6) || (month g =? 9) || (month g =? 11))%Z; lia.
Qed.

Lemma valid_ts_day (t : Timestamp) : valid_ts t -> (1 <= month t <= 12 /\ 1 <= day t)%Z.
Proof. unfold valid_ts. lia. Qed.

Lemma valid_ts_time (t : Timestamp) : valid_ts t -> (0 <= time t < ns_per_day)%Z.
Proof. unfold valid_ts. tauto. Qed.

Lemma rollforward_time (t : Timestamp) : time (Recurring.rollforward t) = time t.
Proof.
  unfold Recurring.rollforward. destruct (Recurring.is_on_offset t); [reflexivity|].
  apply next_month_start_time.
Qed.

Lemma rollforward_month_start (t : Timestamp) :
  valid_ts t ->
  day (Recurring.rollforward t) = 1%Z
  /\ (1 <= month (Recurring.rollforward t) <= 12)%Z
  /\ (Recurring.month_index t <= Recurring.month_index (Recurring.rollforward t))%Z.
Proof.
  intros Hv. apply valid_ts_day in Hv.
  unfold Recurring.rollforward, Recurring.is_on_offset.
  destruct (Z.eqb_spec (day t) 1) as [Hd|Hd].
  - repeat split; lia.
  - rewrite next_month_start_day, next_month_start_index by lia.
    pose proof (next_month_start_month t). repeat split; lia.
Qed.

(** Among month starts at the time of day of the start, being on or after
    the rolled start is being on or after the start. *)
Lemma rollforward_leb (t g : Timestamp) :
  valid_ts t -> day g = 1%Z -> (1 <= month g <= 12)%Z -> time g = time t ->
  ts_leb (Recurring.rollforward t) g = ts_leb t g.
Proof.
  intros Hv Hg Hgm Hgt. apply valid_ts_day in Hv.
  unfold Recurring.rollforward, Recurring.is_on_offset.
  destruct (Z.eqb_spec (day t) 1) as [Hd|Hd]; [reflexivity|].
  unfold Recurring.next_month_start.
  destruct (ts_leb t g) eqn:E; destruct (Z.eqb_spec (month t) 12); ts_arith.
Qed.

Section BothPandasVersions.
Variable end_rollback : bool.

(** The end of the range lies in the month of [end], not after [end]. *)
Lemma range_end_spec (start_date end_date : Timestamp) :
  Recurring.month_index (Recurring.range_end end_rollback start_date end_date) =
  Recurring.month_index end_date
  /\ month (Recurring.range_end end_rollback start_date end_date) = month end_date
  /\ time (Recurring.range_end end_rollback start_date end_date) = time end_date
  /\ ((1 <= day end_date)%Z ->
      ts_leb (Recurring.range_end end_rollback start_date end_date) end_date = true).
Proof.
  unfold Recurring.range_end, Recurring.rollback, Recurring.is_on_offset.
  destruct ((day start_date =? 1)%Z && end_rollback);
    [destruct (Z.eqb_spec (day end_date) 1)|];
    repeat split; intros; try apply ts_leb_refl; ts_arith.
Qed.

Lemma date_range_MS_In (start_date end_date g : Timestamp) :
  valid_ts start_date -> valid_ts end_date ->
  In g (Recurring.date_range_MS end_rollback start_date end_date) <->
  (valid_ts g /\ day g = 1%Z /\ time g = time start_date
   /\ ts_leb start_date g = true
   /\ ts_leb g (Recurring.range_end end_rollback start_date end_date) = true).
Proof.
  intros Hs He. unfold Recurring.date_range_MS.
  destruct (rollforward_month_start _ Hs) as (Hd & Hm & Hi).
  pose proof (valid_ts_day _ He) as [Hem Hed].
  pose proof (valid_ts_time _ Hs) as Hst.
  destruct (range_end_spec start_date end_date) as (Hri & Hrm & _ & _).
  rewrite generate_range_In; auto.
  - rewrite rollforward_time. split.
    + intros (Hg1 & Hgm & Hgt & H1 & H2).
      rewrite rollforward_leb in H1 by assumption.
      split; [apply month_start_valid; congruence|]. auto.
    + intros (Hgv & Hg1 & Hgt & H1 & H2).
      apply valid_ts_day in Hgv.
      rewrite rollforward_leb by tauto. tauto.
  - now rewrite Hrm.
  - rewrite Hri. unfold Recurring.range_fuel. lia.
Qed.

Lemma monthly_dates_unfold (first last_row : Row) (rest : list Row) :
  Recurring.iloc_last (first :: rest) = Some last_row ->
  Recurring.monthly_dates end_rollback (first :: rest) =
  Recurring.date_range_MS end_rollback (Date first) (Date last_row).
Proof. unfold Recurring.monthly_dates. now intros ->. Qed.

(** Every investment date is on or after the first row of the frame. *)
Lemma monthly_dates_after_first (first : Row) (rest : list Row) (g : Timestamp) :
  In g (Recurring.monthly_dates end_rollback (first :: rest)) -> ts_leb (Date first) g = true.
Proof.
  destruct (iloc_last_nonempty first rest) as [last_row Hl].
  rewrite (monthly_dates_unfold _ _ _ Hl). unfold Recurring.date_range_MS.
  intros Hin. apply generate_range_bounds in Hin. destruct Hin as [H _].
  eapply ts_leb_trans; [apply rollforward_later|exact H].
Qed.

Lemma monthly_dates_resolve (data : list Row) (g : Timestamp) :
  In g (Recurring.monthly_dates end_rollback data) ->
  exists p, Recurring.available_row data g = Some p.
Proof.
  destruct data as [|first rest]; [contradiction|].
  intros Hin. apply available_row_exists with first; [now left|].
  now apply monthly_dates_after_first with rest.
Qed.


Lemma day_leb_iff (a b : Timestamp) :
  day_leb a b = true <->
  (year a < year b
   \/ (year a = year b
       /\ (month a < month b \/ (month a = month b /\ day a <= day b))))%Z.
Proof.
  unfold day_leb. repeat rewrite ?orb_true_iff, ?andb_true_iff.
  rewrite !Z.ltb_lt, !Z.eqb_eq, Z.leb_le. tauto.
Qed.

(** For a month start at the time of day of the start, when that time is
    not later than the time of day of the end, the bounds of the range are
    bounds on the calendar day. *)
Lemma month_start_day_order (s e g : Timestamp) :
  valid_ts s -> valid_ts e -> day g = 1%Z -> time g = time s ->
  (time s <= time e)%Z ->
  ts_leb s g = day_leb s g
  /\ ts_leb g (Recurring.range_end end_rollback s e) = day_leb g e.
Proof.
  intros Hs He Hg Hgt Hse.
  apply valid_ts_day in Hs, He.
  split; apply eq_true_iff_eq; rewrite ts_leb_iff, day_leb_iff.
  - lia.
  - unfold Recurring.range_end, Recurring.rollback, Recurring.is_on_offset.
    destruct ((day s =? 1)%Z && end_rollback);
      [destruct (Z.eqb_spec (day e) 1)|]; simpl; lia.
Qed.

(** C4 (as the script has it).  Monthly investment dates.  When the frame
    restricted to the dates from [start_investment_date] on is not empty,
    with [first] its first row and [last_row] its last, the generated dates
    are exactly the timestamps on a first day of a calendar month, at the
    time of day of [first], from the date of [first] to the end of the
    range; that end is the date of [last_row], or the first day of its month
    at its time of day where pandas rolls the end back.  No generated date
    is after the date of [last_row].  The sequence starts at the date of
    [first] rolled forward to a month start (the date of [first] itself when
    it is on a first of month), and each date is followed by the first day
    of the next calendar month.  When the time of day of [first] is not
    later than that of [last_row], as in a file of dates without times,
    every first day of a month between the calendar days of [first] and
    [last_row], both included, is generated. *)
Theorem recurring_monthly_dates_are_month_starts :
  forall (rows : list RawRow) (start_investment_date : Timestamp)
         (first last_row : Row) (rest : list Row),
    let data :=
      Recurring.from_start start_investment_date (sort_values_by_Date (dropna rows)) in
    data = first :: rest ->
    Recurring.iloc_last data = Some last_row ->
    valid_ts (Date first) -> valid_ts (Date last_row) ->
    (forall g, In g (Recurring.monthly_dates end_rollback data) <->
               (valid_ts g /\ day g = 1%Z /\ time g = time (Date first)
                /\ ts_leb (Date first) g = true
                /\ ts_leb g (Recurring.range_end end_rollback (Date first)
                                                 (Date last_row)) = true))
    /\ (forall g, In g (Recurring.monthly_dates end_rollback data) ->
                  ts_leb g (Date last_row) = true)
    /\ (forall g others, Recurring.monthly_dates end_rollback data = g :: others ->
          g = Recurring.rollforward (Date first)
          /\ (day (Date first) = 1%Z -> g = Date first)
          /\ (forall g', valid_ts g' -> day g' = 1%Z -> time g' = time (Date first) ->
                         ts_leb (Date first) g' = true -> ts_leb g g' = true))
    /\ (forall l1 a b l2, Recurring.monthly_dates end_rollback data = l1 ++ a :: b :: l2 ->
          b = Recurring.next_month_start a
          /\ Recurring.month_index b = (Recurring.month_index a + 1)%Z
          /\ ts_ltb a b = true)
    /\ ((time (Date first) <= time (Date last_row))%Z ->
        forall g, In g (Recurring.monthly_dates end_rollback data) <->
                  (valid_ts g /\ day g = 1%Z /\ time g = time (Date first)
                   /\ day_leb (Date first) g = true
                   /\ day_leb g (Date last_row) = true)).
Proof.
  intros rows sd first last_row rest data Hdata Hlast Hvf Hvl.
  rewrite Hdata in *. rewrite (monthly_dates_unfold _ _ _ Hlast).
  assert (Hspec := fun g => date_range_MS_In (Date first) (Date last_row) g Hvf Hvl).
  split; [exact Hspec|]. split; [|split; [|split]].
  - intros g Hg. apply Hspec in Hg. destruct Hg as (_ & _ & _ & _ & Hle).
    eapply ts_leb_trans; [exact Hle|].
    apply range_end_spec. apply valid_ts_day in Hvl. tauto.
  - intros g others Hg.
    assert (Hroll : g = Recurring.rollforward (Date first)).
    { unfold Recurring.date_range_MS in Hg.
      destruct (Recurring.range_fuel (Date first) (Date last_row)); simpl in Hg;
        [discriminate|].
      destruct (ts_leb (Recurring.rollforward (Date first))
                       (Recurring.range_end end_rollback (Date first) (Date last_row)));
        [|discriminate].
      now injection Hg as <-. }
    split; [exact Hroll|]. split.
    + intros Hd. rewrite Hroll. unfold Recurring.rollforward, Recurring.is_on_offset.
      now rewrite Hd.
    + intros g' Hv' Hd' Ht' Hle. rewrite Hroll.
      apply valid_ts_day in Hv'. rewrite rollforward_leb; tauto.
  - intros l1 a b l2 Hl. unfold Recurring.date_range_MS in Hl.
    assert (Hin : In a (Recurring.date_range_MS end_rollback (Date first) (Date last_row))).
    { unfold Recurring.date_range_MS. rewrite Hl. apply in_or_app. right. now left. }
    apply Hspec in Hin. destruct Hin as (Hva & _).
    apply generate_range_step in Hl. subst b.
    apply valid_ts_day in Hva.
    split; [reflexivity|]. split.
    + apply next_month_start_index. tauto.
    + unfold Recurring.next_month_start.
      destruct (Z.eqb_spec (month a) 12); ts_arith.
  - intros Htime g. rewrite Hspec. split.
    + intros (Hv & Hd & Ht & H1 & H2).
      destruct (month_start_day_order _ _ g Hvf Hvl Hd Ht Htime) as [E1 E2].
      rewrite <- E1, <- E2. auto.
    + intros (Hv & Hd & Ht & H1 & H2).
      destruct (month_start_day_order _ _ g Hvf Hvl Hd Ht Htime) as [E1 E2].
      rewrite E1, E2. auto.
Qed.
(** ** Percentages *)

Lemma Qlt_bool_iff (a b : Q) : Qlt_bool a b = true <-> a < b.
Proof.
  unfold Qlt_bool. rewrite negb_true_iff, <- not_true_iff_false, Qle_bool_iff.
  split; [apply Qnot_le_lt|apply Qlt_not_le].
Qed.

Lemma percent_of_guarded (p t : Q) :
  (Qlt_bool 0 t = true /\ ~ t == 0
   /\ Recurring.percent_of p t = Return (p / t * 100))
  \/ (Qlt_bool 0 t = false /\ Recurring.percent_of p t = Return 0).
Proof.
  unfold Recurring.percent_of, py_truediv.
  destruct (Qlt_bool 0 t) eqn:Hgt; [left|right; auto].
  apply Qlt_bool_iff in Hgt.
  assert (Hne : ~ t == 0) by (intros H; rewrite H in Hgt; discriminate).
  destruct (Qeq_bool t 0) eqn:Hz; [apply Qeq_bool_iff in Hz; contradiction|].
  auto.
Qed.

Lemma percent_of_zero (p t : Q) : t == 0 -> Recurring.percent_of p t = Return 0.
Proof.
  intros Ht. destruct (percent_of_guarded p t) as [(_ & Hne & _)|[_ H]];
    [contradiction|exact H].
Qed.

Lemma inject_Z_succ (n : nat) :
  inject_Z (Z.of_nat (S n)) == inject_Z (Z.of_nat n) + 1.
Proof. rewrite Nat2Z.inj_succ. unfold Z.succ. now rewrite inject_Z_plus. Qed.

(** ** The loop over the investment dates *)

Lemma fold_invest_totals (data : list Row) (monthly_budget split : Q)
    (dates : list Timestamp) :
  (forall g, In g dates -> exists p, Recurring.available_row data g = Some p) ->
  forall acc,
    let acc' := fold_left (Recurring.invest data monthly_budget split) dates acc in
    map Recurring.purchase_Date (Recurring.acc_history acc') =
    map Recurring.purchase_Date (Recurring.acc_history acc) ++ dates
    /\ Recurring.acc_investment acc' ==
       Recurring.acc_investment acc
       + inject_Z (Z.of_nat (List.length dates)) * (monthly_budget * split).
Proof.
  induction dates as [|g dates IH]; intros Hres acc; simpl.
  - rewrite app_nil_r. split; [reflexivity|]. unfold inject_Z. ring.
  - destruct (Hres g (or_introl eq_refl)) as [p Hp].
    assert (Hres' : forall g', In g' dates ->
                               exists p', Recurring.available_row data g' = Some p')
      by (intros g' Hg'; apply Hres; now right).
    specialize (IH Hres' (Recurring.invest data monthly_budget split acc g)).
    cbv zeta in IH. destruct IH as [IHh IHi]. split.
    + rewrite IHh. unfold Recurring.invest. rewrite Hp. simpl.
      rewrite map_app. simpl. now rewrite <- app_assoc.
    + rewrite IHi. unfold Recurring.invest at 1. rewrite Hp.
      cbn [Recurring.acc_investment].
      change (Z.pos (Pos.of_succ_nat (List.length dates)))
        with (Z.of_nat (S (List.length dates))).
      rewrite inject_Z_succ. ring.
Qed.

(** What [simulate] stores for a frame that is not empty after the
    restriction to the start date. *)
Lemma simulate_recorded (rows : list RawRow) (monthly_budget split : Q)
    (sd : Timestamp) (first : Row) (rest : list Row) :
  Recurring.from_start sd (sort_values_by_Date (dropna rows)) = first :: rest ->
  exists (last_row : Row) (pct : Q),
    let data := first :: rest in
    let acc := fold_left (Recurring.invest data monthly_budget split)
                         (Recurring.monthly_dates end_rollback data)
                         (Recurring.mkTotals 0 0 []) in
    let profit := Recurring.acc_shares acc * Close last_row
                  - Recurring.acc_investment acc in
    Recurring.iloc_last data = Some last_row
    /\ Recurring.percent_of profit (Recurring.acc_investment acc) = Return pct
    /\ Recurring.simulate end_rollback rows monthly_budget split sd =
       (Recurring.Recorded
          (Recurring.mkOutcome (Recurring.acc_shares acc) (Recurring.acc_investment acc)
                               (Close last_row) profit pct),
        Recurring.acc_history acc).
Proof.
  intros Hdata. destruct (iloc_last_nonempty first rest) as [last_row Hlast].
  exists last_row.
  set (acc := fold_left (Recurring.invest (first :: rest) monthly_budget split)
                        (Recurring.monthly_dates end_rollback (first :: rest))
                        (Recurring.mkTotals 0 0 [])).
  set (profit := Recurring.acc_shares acc * Close last_row
                 - Recurring.acc_investment acc).
  assert (Hpct : exists pct,
             Recurring.percent_of profit (Recurring.acc_investment acc) = Return pct).
  { destruct (percent_of_guarded profit (Recurring.acc_investment acc))
      as [(_ & _ & H)|[_ H]]; eauto. }
  destruct Hpct as [pct Hpct]. exists pct. cbv zeta.
  split; [exact Hlast|]. split; [exact Hpct|].
  unfold Recurring.simulate. rewrite Hdata, Hlast.
  fold acc. fold profit. now rewrite Hpct.
Qed.

(** ** The budget split *)

(** Against C5 as stated: with an empty basket the split does not fail with
    [EmptyBasketError]; its failure is the division's [ZeroDivisionError]. *)
Lemma empty_basket_split_is_not_guarded :
  LumpSum.split_percentage [] <> Raise EmptyBasketError
  /\ Recurring.split_percentage [] <> Raise EmptyBasketError
  /\ ~ (LumpSum.split_percentage [] <> Raise ZeroDivisionError)
  /\ ~ (Recurring.split_percentage [] <> Raise ZeroDivisionError).
Proof.
  repeat split; try discriminate; intros H; now apply H.
Qed.

(** C5 (as the scripts have it).  With an empty basket, [1 / len(target_files)]
    raises Python's [ZeroDivisionError]: the division is not guarded, and
    each script stops there, before it looks at the data directory or at any
    instrument. *)
Theorem empty_basket_raises_ZeroDivisionError :
  LumpSum.split_percentage [] = Raise ZeroDivisionError
  /\ Recurring.split_percentage [] = Raise ZeroDivisionError
  /\ (forall dir total_budget purchase_date,
         LumpSum.run dir [] total_budget purchase_date = LumpSum.Crashed ZeroDivisionError)
  /\ (forall dir monthly_budget start_investment_date,
         Recurring.run end_rollback dir [] monthly_budget start_investment_date =
         Recurring.Crashed ZeroDivisionError).
Proof. repeat split. Qed.

(** ** Prices that are not positive *)

Lemma Qdiv_neg_divisor (a b : Q) : 0 < a -> b < 0 -> a / b < 0.
Proof.
  intros Ha Hb. destruct a as [an ad], b as [[|bn|bn] bd];
    unfold Qlt, Qdiv, Qmult, Qinv in *; simpl in *; try lia.
Qed.

(** C6 (as the scripts have it).  Neither simulator checks the purchase
    price.  Lump sum: when the purchase date is found, the outcome is
    recorded whatever the low of that row, also when it is zero or negative;
    for a negative low the shares are allocation / low, a negative number
    for a positive allocation.  Recurring: a resolved period buys at the low
    of the resolved row whatever its sign, and the instrument is recorded
    whenever it has data from the start date on. *)
Theorem price_is_never_checked :
  (forall (rows : list RawRow) (allocation : Q) (purchase_date : string)
          (pre post : list Row) (p : Row),
      dropna rows = pre ++ p :: post ->
      Forall (fun r => strftime_Ymd (Date r) <> purchase_date) pre ->
      strftime_Ymd (Date p) = purchase_date ->
      Low p <= 0 ->
      exists o,
        LumpSum.simulate rows allocation purchase_date = LumpSum.Recorded o
        /\ LumpSum.purchase_price o = Low p
        /\ (Low p < 0 -> LumpSum.shares_bought o = allocation / Low p)
        /\ (Low p < 0 -> 0 < allocation -> LumpSum.shares_bought o < 0))
  /\ (forall (data : list Row) (monthly_budget split : Q) (acc : Recurring.Totals)
             (g : Timestamp) (row : Row),
         Recurring.available_row data g = Some row ->
         Low row <= 0 ->
         exists shares,
           Recurring.invest data monthly_budget split acc g =
           Recurring.mkTotals
             (Recurring.acc_shares acc + shares)
             (Recurring.acc_investment acc + monthly_budget * split)
             (Recurring.acc_history acc ++ [Recurring.mkPurchase g shares (Low row)])
           /\ (Low row < 0 -> shares = monthly_budget * split / Low row))
  /\ (forall (rows : list RawRow) (monthly_budget split : Q) (sd : Timestamp)
             (first : Row) (rest : list Row),
         Recurring.from_start sd (sort_values_by_Date (dropna rows)) = first :: rest ->
         exists o h,
           Recurring.simulate end_rollback rows monthly_budget split sd = (Recurring.Recorded o, h)).
Proof.
  split; [|split].
  - intros rows allocation purchase_date pre post p Hsplit Hpre Hp _.
    eexists. split; [|split; [|split]].
    + unfold LumpSum.simulate. rewrite Hsplit at 1. rewrite filter_first_match.
      * reflexivity.
      * eapply Forall_impl; [|exact Hpre]. intros r Hr. simpl in Hr.
        now apply String.eqb_neq.
      * now apply String.eqb_eq.
    + reflexivity.
    + reflexivity.
    + intros Hlow Halloc. simpl. now apply Qdiv_neg_divisor.
  - intros data mb split acc g row Hrow _. eexists. split.
    + unfold Recurring.invest. rewrite Hrow. reflexivity.
    + reflexivity.
  - intros rows mb split sd first rest Hdata.
    destruct (simulate_recorded rows mb split sd first rest Hdata)
      as (last_row & pct & _ & _ & H).
    eauto.
Qed.

(** ** Dictionaries filled by a loop *)

Section Collect.
Context {V : Type}.
Variable f : string -> option V.

Lemma dict_get_set (d : dict V) (k k' : string) (v : V) :
  dict_get (dict_set d k v) k' = if String.eqb k k' then Some v else dict_get d k'.
Proof.
  induction d as [|[k0 v0] d IH]; simpl.
  - reflexivity.
  - destruct (String.eqb k0 k) eqn:E; simpl.
    + apply String.eqb_eq in E. subst k0. now destruct (String.eqb k k').
    + rewrite IH. destruct (String.eqb k k') eqn:E'; [|reflexivity].
      apply String.eqb_eq in E'. subst k'. now rewrite E.
Qed.

Lemma collect_get_notin (keys : list string) (d0 : dict V) (k : string) :
  ~ In k keys -> dict_get (collect f keys d0) k = dict_get d0 k.
Proof.
  revert d0. induction keys as [|s keys IH]; intros d0 Hk; [reflexivity|].
  unfold collect in *. simpl. rewrite IH by (intros H; apply Hk; now right).
  destruct (f s); [|reflexivity].
  rewrite dict_get_set. destruct (String.eqb s k) eqn:E; [|reflexivity].
  apply String.eqb_eq in E. subst s. exfalso. apply Hk. now left.
Qed.

Lemma collect_get_in (keys : list string) (d0 : dict V) (k : string) :
  In k keys ->
  dict_get (collect f keys d0) k =
  match f k with Some v => Some v | None => dict_get d0 k end.
Proof.
  revert d0. induction keys as [|s keys IH]; intros d0 Hk; [contradiction|].
  change (collect f (s :: keys) d0)
    with (collect f keys (match f s with Some v => dict_set d0 s v | None => d0 end)).
  destruct (in_dec string_dec k keys) as [Hin|Hnin].
  - rewrite (IH _ Hin). destruct (f k) eqn:Hfk; [reflexivity|].
    destruct (f s) eqn:Hfs; [|reflexivity].
    rewrite dict_get_set. destruct (String.eqb s k) eqn:E; [|reflexivity].
    apply String.eqb_eq in E. congruence.
  - rewrite (collect_get_notin _ _ _ Hnin).
    destruct Hk as [->|Hk]; [|contradiction].
    destruct (f k); [|reflexivity].
    rewrite dict_get_set. now rewrite String.eqb_refl.
Qed.

End Collect.

Lemma lump_process_all_collect (dir : DataDir) (total_budget split : Q)
    (purchase_date : string) (target_files : list string) :
  LumpSum.process_all dir total_budget split purchase_date target_files =
  collect (fun k => lump_recorded
                      (LumpSum.process_stock dir total_budget split purchase_date k))
          target_files [].
Proof.
  unfold LumpSum.process_all, collect. generalize (@nil (string * LumpSum.Outcome)).
  induction target_files as [|s tf IH]; intros d0; [reflexivity|].
  simpl. rewrite IH.
  now destruct (LumpSum.process_stock dir total_budget split purchase_date s).
Qed.

Lemma recurring_process_all_collect (dir : DataDir) (monthly_budget split : Q)
    (sd : Timestamp) (target_files : list string) :
  fst (Recurring.process_all end_rollback dir monthly_budget split sd target_files) =
  collect (fun k => recurring_recorded
                      (Recurring.process_stock end_rollback dir monthly_budget split sd k))
          target_files [].
Proof.
  unfold Recurring.process_all, collect.
  generalize (Recurring.history_init target_files).
  generalize (@nil (string * Recurring.Outcome)).
  induction target_files as [|s tf IH]; intros d0 h0; [reflexivity|].
  simpl. unfold recurring_recorded at 2.
  destruct (Recurring.process_stock end_rollback dir monthly_budget split sd s) as [[why|o] ev];
    simpl; apply IH.
Qed.

Lemma split_percentage_nonempty (s : string) (rest : list string) :
  LumpSum.split_percentage (s :: rest) =
  Return (1 / inject_Z (Z.of_nat (List.length (s :: rest))))
  /\ Recurring.split_percentage (s :: rest) =
     Return (1 / inject_Z (Z.of_nat (List.length (s :: rest)))).
Proof.
  unfold LumpSum.split_percentage, Recurring.split_percentage, py_truediv.
  destruct (Qeq_bool (inject_Z (Z.of_nat (List.length (s :: rest)))) 0) eqn:E;
    [|split; reflexivity].
  apply Qeq_bool_iff in E. unfold Qeq in E. simpl in E. lia.
Qed.

(** ** The guard on the invested total *)

Lemma recurring_simulate_inv (rows : list RawRow) (monthly_budget split : Q)
    (sd : Timestamp) (o : Recurring.Outcome) (h : list Recurring.Purchase) :
  Recurring.simulate end_rollback rows monthly_budget split sd = (Recurring.Recorded o, h) ->
  exists first rest,
    Recurring.from_start sd (sort_values_by_Date (dropna rows)) = first :: rest
    /\ Recurring.percent_of (Recurring.profit o) (Recurring.total_investment o) =
       Return (Recurring.profit_percentage o).
Proof.
  intros H.
  destruct (Recurring.from_start sd (sort_values_by_Date (dropna rows)))
    as [|first rest] eqn:Hdata.
  - unfold Recurring.simulate in H. rewrite Hdata in H. discriminate.
  - exists first, rest. split; [reflexivity|].
    destruct (simulate_recorded rows monthly_budget split sd first rest Hdata)
      as (last_row & pct & _ & Hpct & Hsim).
    cbv zeta in Hpct, Hsim. rewrite Hsim in H. injection H as <- _. exact Hpct.
Qed.

Lemma recurring_run_finished (dir : DataDir) (s : string) (rest : list string)
    (monthly_budget : Q) (sd : Timestamp) :
  dir_has_files dir = true ->
  exists report,
    Recurring.run end_rollback dir (s :: rest) monthly_budget sd = Recurring.Finished report
    /\ Recurring.results report =
       fst (Recurring.process_all end_rollback dir monthly_budget
              (1 / inject_Z (Z.of_nat (List.length (s :: rest)))) sd (s :: rest))
    /\ Recurring.total_profit report = Recurring.sum_profit (Recurring.results report)
    /\ Recurring.total_invested report =
       Recurring.sum_investment (Recurring.results report)
    /\ Recurring.percent_of (Recurring.total_profit report)
                            (Recurring.total_invested report) =
       Return (Recurring.total_profit_percent report)
    /\ Recurring.ranking report = Recurring.sorted_results (Recurring.results report).
Proof.
  intros Hdir. unfold Recurring.run.
  rewrite (proj2 (split_percentage_nonempty s rest)), Hdir. cbn [negb].
  destruct (Recurring.process_all end_rollback dir monthly_budget
              (1 / inject_Z (Z.of_nat (List.length (s :: rest)))) sd (s :: rest))
    as [res hist].
  destruct (percent_of_guarded (Recurring.sum_profit res) (Recurring.sum_investment res))
    as [(_ & _ & H)|[_ H]]; rewrite H; eexists; repeat split; exact H.
Qed.

(** C8.  The guard on a zero investment.  The percentage of lines 88 and
    107 is 0 when the invested total is 0, it never fails, and it divides
    only by a total that is greater than 0, hence not 0.  So an instrument
    whose invested total is 0 is recorded with a profit percentage of 0, the
    simulation of an instrument never ends in the error handler, a finished
    run whose total investment is 0 reports a total percentage of 0, and the
    run can only stop with an exception on an empty basket. *)
Theorem recurring_zero_investment_guard :
  (forall p t, t == 0 -> Recurring.percent_of p t = Return 0)
  /\ (forall p t, exists q,
         Recurring.percent_of p t = Return q
         /\ ((~ 0 < t /\ q = 0)
             \/ (0 < t /\ ~ t == 0 /\ py_truediv p t = Return (p / t)
                 /\ q = p / t * 100)))
  /\ (forall rows monthly_budget split sd o h,
         Recurring.simulate end_rollback rows monthly_budget split sd = (Recurring.Recorded o, h) ->
         Recurring.total_investment o == 0 ->
         Recurring.profit_percentage o = 0)
  /\ (forall rows monthly_budget split sd,
         fst (Recurring.simulate end_rollback rows monthly_budget split sd) <>
         Recurring.Skipped Recurring.ErrorProcessing)
  /\ (forall dir target_files monthly_budget sd report,
         Recurring.run end_rollback dir target_files monthly_budget sd = Recurring.Finished report ->
         Recurring.total_invested report == 0 ->
         Recurring.total_profit_percent report = 0)
  /\ (forall dir target_files monthly_budget sd e,
         Recurring.run end_rollback dir target_files monthly_budget sd = Recurring.Crashed e ->
         target_files = []).
Proof.
  split; [exact percent_of_zero|]. split; [|split; [|split; [|split]]].
  - intros p t. destruct (percent_of_guarded p t) as [(Hgt & Hne & H)|[Hgt H]].
    + exists (p / t * 100). split; [exact H|]. right.
      apply Qlt_bool_iff in Hgt. repeat split; auto.
      unfold py_truediv. destruct (Qeq_bool t 0) eqn:E; [|reflexivity].
      apply Qeq_bool_iff in E. contradiction.
    + exists 0. split; [exact H|]. left. split; [|reflexivity].
      intros Hlt. apply Qlt_bool_iff in Hlt. congruence.
  - intros rows mb split sd o h Hsim Hzero.
    destruct (recurring_simulate_inv _ _ _ _ _ _ Hsim) as (first & rest & _ & Hpct).
    rewrite (percent_of_zero _ _ Hzero) in Hpct. now injection Hpct.
  - intros rows mb split sd.
    destruct (Recurring.from_start sd (sort_values_by_Date (dropna rows)))
      as [|first rest] eqn:Hdata.
    + unfold Recurring.simulate. rewrite Hdata. discriminate.
    + destruct (simulate_recorded rows mb split sd first rest Hdata)
        as (last_row & pct & _ & _ & Hsim).
      cbv zeta in Hsim. rewrite Hsim. discriminate.
  - intros dir [|s tf] mb sd report Hrun Hzero; [discriminate|].
    destruct (dir_has_files dir) eqn:Hdir.
    + destruct (recurring_run_finished dir s tf mb sd Hdir)
        as (report' & Hrun' & _ & _ & _ & Hpct & _).
      rewrite Hrun' in Hrun. injection Hrun as <-.
      rewrite (percent_of_zero _ _ Hzero) in Hpct. now injection Hpct.
    + unfold Recurring.run in Hrun.
      rewrite (proj2 (split_percentage_nonempty s tf)), Hdir in Hrun. discriminate.
  - intros dir [|s tf] mb sd e Hrun; [reflexivity|].
    destruct (dir_has_files dir) eqn:Hdir.
    + destruct (recurring_run_finished dir s tf mb sd Hdir) as (report' & Hrun' & _).
      rewrite Hrun' in Hrun. discriminate.
    + unfold Recurring.run in Hrun.
      rewrite (proj2 (split_percentage_nonempty s tf)), Hdir in Hrun. discriminate.
Qed.

(** ** Every generated date buys *)

(** C10.  In the recurring simulator, when the frame restricted to the
    dates from [start_investment_date] on is not empty, every generated
    monthly date resolves to a row, so the branch that skips a date is
    never taken: the purchase events are one per generated date, in order,
    and the invested total is their number times the allocation of a
    period.  When no month start falls in the data range the total is 0,
    nothing fails, and the instrument is recorded with profit 0.  In a run
    the recorded outcome is the entry of the instrument in [results]. *)
Theorem recurring_every_generated_date_buys :
  forall (rows : list RawRow) (monthly_budget split : Q) (sd : Timestamp)
         (first : Row) (rest : list Row),
    let data := Recurring.from_start sd (sort_values_by_Date (dropna rows)) in
    data = first :: rest ->
    (forall g, In g (Recurring.monthly_dates end_rollback data) ->
               ts_leb (Date first) g = true
               /\ Recurring.available_row data g <> None)
    /\ exists o h,
        Recurring.simulate end_rollback rows monthly_budget split sd = (Recurring.Recorded o, h)
        /\ map Recurring.purchase_Date h = Recurring.monthly_dates end_rollback data
        /\ List.length h = List.length (Recurring.monthly_dates end_rollback data)
        /\ Recurring.total_investment o ==
           inject_Z (Z.of_nat (List.length (Recurring.monthly_dates end_rollback data)))
           * (monthly_budget * split)
        /\ (Recurring.monthly_dates end_rollback data = [] ->
            h = [] /\ Recurring.total_investment o = 0
            /\ Recurring.profit o == 0 /\ Recurring.profit_percentage o = 0)
        /\ (forall dir target_files stock,
               In stock target_files ->
               dir_has_files dir = true ->
               csv_of dir stock = Frame rows ->
               Recurring.split_percentage target_files = Return split ->
               exists report,
                 Recurring.run end_rollback dir target_files monthly_budget sd =
                 Recurring.Finished report
                 /\ dict_get (Recurring.results report) stock = Some o).
Proof.
  intros rows mb split sd first rest data Hdata.
  assert (Hres : forall g, In g (Recurring.monthly_dates end_rollback data) ->
                           exists p, Recurring.available_row data g = Some p)
    by (intros g; apply monthly_dates_resolve).
  split.
  - intros g Hg. split.
    + rewrite Hdata in Hg. now apply monthly_dates_after_first with rest.
    + destruct (Hres g Hg) as [p ->]. discriminate.
  - destruct (simulate_recorded rows mb split sd first rest Hdata)
      as (last_row & pct & Hlast & Hpct & Hsim).
    cbv zeta in Hpct, Hsim. fold data in Hdata. rewrite <- Hdata in Hpct, Hsim.
    destruct (fold_invest_totals data mb split _ Hres (Recurring.mkTotals 0 0 []))
      as [Hh Hi].
    cbn [Recurring.acc_history Recurring.acc_investment map app] in Hh, Hi.
    do 2 eexists. split; [exact Hsim|]. split; [exact Hh|].
    split; [|split; [|split]].
    + rewrite <- Hh at 2. now rewrite length_map.
    + cbn [Recurring.total_investment]. rewrite Hi. ring.
    + intros Hnone. rewrite Hnone in Hpct |- *. simpl in *.
      split; [reflexivity|]. split; [reflexivity|]. split; [ring|].
      rewrite percent_of_zero in Hpct by reflexivity. now injection Hpct.
    + intros dir tf stock Hin Hdir Hfile Hsplit.
      destruct tf as [|s tf]; [contradiction|].
      destruct (recurring_run_finished dir s tf mb sd Hdir)
        as (report & Hrun & Hresults & _).
      exists report. split; [exact Hrun|].
      assert (Hs : 1 / inject_Z (Z.of_nat (List.length (s :: tf))) = split).
      { rewrite (proj2 (split_percentage_nonempty s tf)) in Hsplit.
        now injection Hsplit. }
      rewrite Hs in Hresults.
      rewrite Hresults, recurring_process_all_collect, (collect_get_in _ _ _ _ Hin).
      unfold Recurring.process_stock. rewrite Hfile. subst data.
      unfold recurring_recorded. now rewrite Hsim.
Qed.

(** ** Skipped instruments in the lump-sum run *)

Lemma lump_simulate_date_absent (rows : list RawRow) (allocation : Q)
    (purchase_date : string) :
  Forall (fun r => strftime_Ymd (Date r) <> purchase_date) (dropna rows) ->
  LumpSum.simulate rows allocation purchase_date =
  LumpSum.Skipped LumpSum.PurchaseDateNotFound.
Proof.
  intros Habs. unfold LumpSum.simulate. rewrite filter_none; [reflexivity|].
  eapply Forall_impl; [|exact Habs]. intros r Hr. simpl in Hr.
  now apply String.eqb_neq.
Qed.

Lemma lump_run_finished (dir : DataDir) (s : string) (rest : list string)
    (total_budget : Q) (purchase_date : string) :
  dir_has_files dir = true -> ~ total_budget == 0 ->
  exists report,
    LumpSum.run dir (s :: rest) total_budget purchase_date = LumpSum.Finished report
    /\ LumpSum.results report =
       LumpSum.process_all dir total_budget
         (1 / inject_Z (Z.of_nat (List.length (s :: rest)))) purchase_date (s :: rest)
    /\ LumpSum.total_profit report = LumpSum.sum_profit (LumpSum.results report)
    /\ LumpSum.total_percent (LumpSum.results report) (LumpSum.total_profit report)
                             total_budget =
       Return (LumpSum.total_profit_percent report)
    /\ LumpSum.ranking report = LumpSum.sorted_results (LumpSum.results report).
Proof.
  intros Hdir Hbudget. unfold LumpSum.run.
  rewrite (proj1 (split_percentage_nonempty s rest)), Hdir. cbn [negb].
  set (res := LumpSum.process_all dir total_budget _ purchase_date (s :: rest)).
  assert (H : exists q, LumpSum.total_percent res (LumpSum.sum_profit res) total_budget
                        = Return q).
  { unfold LumpSum.total_percent, py_truediv. destruct res; [|eauto].
    destruct (Qeq_bool total_budget 0) eqn:E; [|eauto].
    apply Qeq_bool_iff in E. contradiction. }
  destruct H as [q Hq]. rewrite Hq. eexists. repeat split. exact Hq.
Qed.

(** C7.  A missing purchase date skips one instrument only.  In a run of
    the lump-sum script (data directory present, budget not 0), an
    instrument of the basket whose series has no row on [purchase_date] is
    skipped: it has no entry in [results].  Every other instrument of the
    basket is processed as if nothing had happened, its entry being what its
    own file yields, and the run goes on to the totals and the ranking over
    the collected results. *)
Theorem lump_sum_missing_purchase_date_is_skipped :
  forall (dir : DataDir) (target_files : list string) (total_budget : Q)
         (purchase_date stock : string) (rows : list RawRow),
    dir_has_files dir = true ->
    ~ total_budget == 0 ->
    In stock target_files ->
    csv_of dir stock = Frame rows ->
    Forall (fun r => strftime_Ymd (Date r) <> purchase_date) (dropna rows) ->
    exists split report,
      LumpSum.split_percentage target_files = Return split
      /\ LumpSum.process_stock dir total_budget split purchase_date stock =
         LumpSum.Skipped LumpSum.PurchaseDateNotFound
      /\ LumpSum.run dir target_files total_budget purchase_date =
         LumpSum.Finished report
      /\ dict_get (LumpSum.results report) stock = None
      /\ (forall other, In other target_files ->
            dict_get (LumpSum.results report) other =
            match LumpSum.process_stock dir total_budget split purchase_date other with
            | LumpSum.Recorded o => Some o
            | LumpSum.Skipped _ => None
            end)
      /\ (forall other, ~ In other target_files ->
            dict_get (LumpSum.results report) other = None)
      /\ LumpSum.total_profit report = LumpSum.sum_profit (LumpSum.results report)
      /\ LumpSum.ranking report = LumpSum.sorted_results (LumpSum.results report).
Proof.
  intros dir tf total_budget purchase_date stock rows Hdir Hbudget Hin Hfile Habs.
  destruct tf as [|s tf]; [contradiction|].
  destruct (lump_run_finished dir s tf total_budget purchase_date Hdir Hbudget)
    as (report & Hrun & Hres & Htotal & _ & Hrank).
  exists (1 / inject_Z (Z.of_nat (List.length (s :: tf)))), report.
  assert (Hskip : LumpSum.process_stock dir total_budget
                    (1 / inject_Z (Z.of_nat (List.length (s :: tf))))
                    purchase_date stock
                  = LumpSum.Skipped LumpSum.PurchaseDateNotFound).
  { unfold LumpSum.process_stock. rewrite Hfile.
    now apply lump_simulate_date_absent. }
  split; [apply split_percentage_nonempty|].
  split; [exact Hskip|]. split; [exact Hrun|].
  rewrite Hres, lump_process_all_collect.
  split; [|split; [|split]].
  - rewrite (collect_get_in _ _ _ _ Hin). rewrite Hskip. reflexivity.
  - intros other Hother. rewrite (collect_get_in _ _ _ _ Hother).
    now destruct (LumpSum.process_stock dir total_budget _ purchase_date other).
  - intros other Hother. now rewrite (collect_get_notin _ _ _ _ Hother).
  - rewrite Htotal, Hres, lump_process_all_collect. split; [reflexivity|].
    rewrite Hrank, Hres, lump_process_all_collect. reflexivity.
Qed.

(** AAPL is skipped, MSFT is recorded with its own outcome. *)
Lemma lump_sum_missing_purchase_date_is_skipped_witness :
  exists report,
    LumpSum.run example_dir ["AAPL"; "MSFT"; "TSLA"]%string 900 "2024-03-01" =
    LumpSum.Finished report
    /\ dict_get (LumpSum.results report) "AAPL" = None
    /\ dict_get (LumpSum.results report) "MSFT" =
       Some (LumpSum.mkOutcome (900 * (1 / 3) / 90) 90 110
               (900 * (1 / 3) / 90 * 110 - 900 * (1 / 3))
               ((900 * (1 / 3) / 90 * 110 - 900 * (1 / 3)) / (900 * (1 / 3)) * 100)).
Proof.
  destruct (lump_sum_missing_purchase_date_is_skipped
              example_dir ["AAPL"; "MSFT"; "TSLA"]%string 900 "2024-03-01"%string
              "AAPL"%string one_month_history)
    as (split & report & Hsplit & _ & Hrun & Habsent & Hothers & _).
  - reflexivity.
  - vm_compute; discriminate.
  - now left.
  - reflexivity.
  - repeat constructor; vm_compute; discriminate.
  - exists report. split; [exact Hrun|]. split; [exact Habsent|].
    rewrite (Hothers "MSFT"%string) by (right; now left).
    injection Hsplit as <-. reflexivity.
Defined.

(** ** The order of the entries of [results] *)

Section CollectKeys.
Context {V : Type}.
Variable f : string -> option V.

Lemma dict_keys_set_new (d : dict V) (k : string) (v : V) :
  ~ In k (dict_keys d) -> dict_keys (dict_set d k v) = dict_keys d ++ [k].
Proof.
  induction d as [|[k0 v0] d IH]; simpl; intros Hk; [reflexivity|].
  destruct (String.eqb k0 k) eqn:E.
  - apply String.eqb_eq in E. exfalso. apply Hk. now left.
  - simpl. rewrite IH; [reflexivity|]. intros H. apply Hk. now right.
Qed.

Lemma collect_keys (keys : list string) (d0 : dict V) :
  NoDup keys -> (forall k, In k keys -> ~ In k (dict_keys d0)) ->
  dict_keys (collect f keys d0) = dict_keys d0 ++ filter (yields f) keys.
Proof.
  intros Hnd. revert d0. induction Hnd as [|s keys Hs Hnd IH]; intros d0 Hfresh.
  - simpl. now rewrite app_nil_r.
  - change (collect f (s :: keys) d0)
      with (collect f keys (match f s with Some v => dict_set d0 s v | None => d0 end)).
    cbn [filter].
    change (yields f s) with (match f s with Some _ => true | None => false end).
    destruct (f s) as [v|].
    + rewrite IH.
      * rewrite dict_keys_set_new by (apply Hfresh; now left).
        now rewrite <- app_assoc.
      * intros k Hk. rewrite dict_keys_set_new by (apply Hfresh; now left).
        intros H. apply in_app_or in H. destruct H as [H|[<-|[]]].
        -- revert H. apply Hfresh. now right.
        -- contradiction.
    + apply IH. intros k Hk. apply Hfresh. now right.
Qed.

End CollectKeys.

(** ** The ranking *)

Section Ranking.
Context {A : Type}.
Variable key : A -> Q.

Lemma sort_by_key_descending (l : list A) :
  Permutation (stable_sort (key_before key) l) l
  /\ StronglySorted (fun a b => key b <= key a) (stable_sort (key_before key) l)
  /\ (forall q,
         filter (fun e => Qeq_bool (key e) q) (stable_sort (key_before key) l) =
         filter (fun e => Qeq_bool (key e) q) l).
Proof.
  split; [apply stable_sort_perm|]. split.
  - eapply StronglySorted_weaken; [|apply stable_sort_sorted].
    + unfold in_order, key_before. intros a b H.
      apply Qnot_lt_le. intros Hlt. apply Qlt_bool_iff in Hlt. congruence.
    + unfold key_before. intros a b H. apply Qlt_bool_iff in H.
      apply not_true_iff_false. rewrite Qlt_bool_iff.
      apply Qle_not_lt. now apply Qlt_le_weak.
    + unfold in_order, key_before. intros a b c H1 H2.
      apply not_true_iff_false in H1, H2. rewrite Qlt_bool_iff in H1, H2.
      apply not_true_iff_false. rewrite Qlt_bool_iff.
      apply Qnot_lt_le in H1, H2. apply Qle_not_lt.
      now apply Qle_trans with (key b).
  - intros q. apply stable_sort_filter. intros a b Ha Hb.
    apply Qeq_bool_iff in Ha, Hb. unfold key_before.
    apply not_true_iff_false. rewrite Qlt_bool_iff, Ha, Hb.
    apply Qlt_irrefl.
Qed.

End Ranking.

(** C9.  The ranking of the report.  For every collection of outcomes, in
    either script, the ranked sequence is a rearrangement of the entries of
    [results] in which the profit never increases from one entry to any
    later one, and for every profit value the entries with that profit
    stand in the order they have in [results], the order of insertion. *)
Theorem ranking_is_sorted_and_stable :
  (forall results : dict LumpSum.Outcome,
      Permutation (LumpSum.sorted_results results) results
      /\ StronglySorted (fun a b => LumpSum.profit (snd b) <= LumpSum.profit (snd a))
                        (LumpSum.sorted_results results)
      /\ (forall q,
             filter (fun kv => Qeq_bool (LumpSum.profit (snd kv)) q)
                    (LumpSum.sorted_results results) =
             filter (fun kv => Qeq_bool (LumpSum.profit (snd kv)) q) results))
  /\ (forall results : dict Recurring.Outcome,
         Permutation (Recurring.sorted_results results) results
         /\ StronglySorted
              (fun a b => Recurring.profit (snd b) <= Recurring.profit (snd a))
              (Recurring.sorted_results results)
         /\ (forall q,
                filter (fun kv => Qeq_bool (Recurring.profit (snd kv)) q)
                       (Recurring.sorted_results results) =
                filter (fun kv => Qeq_bool (Recurring.profit (snd kv)) q) results)).
Proof.
  split; intros results.
  - exact (sort_by_key_descending (fun kv => LumpSum.profit (snd kv)) results).
  - exact (sort_by_key_descending (fun kv => Recurring.profit (snd kv)) results).
Qed.

(** The entries of [results] follow the basket: for a basket without
    repetition, the keys are the instruments that were recorded, in basket
    order. *)
Lemma results_follow_basket_order :
  (forall dir total_budget split purchase_date target_files,
      NoDup target_files ->
      dict_keys (LumpSum.process_all dir total_budget split purchase_date target_files) =
      filter (fun k =>
                match LumpSum.process_stock dir total_budget split purchase_date k with
                | LumpSum.Recorded _ => true
                | LumpSum.Skipped _ => false
                end) target_files)
  /\ (forall dir monthly_budget split sd target_files,
         NoDup target_files ->
         dict_keys (fst (Recurring.process_all end_rollback dir monthly_budget split sd target_files)) =
         filter (fun k =>
                   match fst (Recurring.process_stock end_rollback dir monthly_budget split sd k) with
                   | Recurring.Recorded _ => true
                   | Recurring.Skipped _ => false
                   end) target_files).
Proof.
  split.
  - intros dir b split pd tf Hnd.
    rewrite lump_process_all_collect, collect_keys by auto. simpl.
    apply filter_ext. intros k. unfold yields, lump_recorded.
    now destruct (LumpSum.process_stock dir b split pd k).
  - intros dir b split sd tf Hnd.
    rewrite recurring_process_all_collect, collect_keys by auto. simpl.
    apply filter_ext. intros k. unfold yields, recurring_recorded.
    now destruct (fst (Recurring.process_stock end_rollback dir b split sd k)).
Qed.

(** * Further properties of the scripts *)

(** ** The lump-sum outcome of one instrument *)

(** What a recorded lump-sum outcome is made of. *)
Lemma lump_simulate_inv (rows : list RawRow) (allocation : Q) (purchase_date : string)
    (o : LumpSum.Outcome) :
  LumpSum.simulate rows allocation purchase_date = LumpSum.Recorded o ->
  exists (pre post front : list Row) (p last_row : Row),
    dropna rows = pre ++ p :: post
    /\ Forall (fun r => strftime_Ymd (Date r) <> purchase_date) pre
    /\ strftime_Ymd (Date p) = purchase_date
    /\ dropna rows = front ++ [last_row]
    /\ o = LumpSum.mkOutcome
             (allocation / Low p) (Low p) (Close last_row)
             (allocation / Low p * Close last_row - allocation)
             ((allocation / Low p * Close last_row - allocation) / allocation * 100).
Proof.
  unfold LumpSum.simulate.
  set (f := fun r => String.eqb (strftime_Ymd (Date r)) purchase_date).
  assert (Hfirst : forall l p l',
             filter f l = p :: l' ->
             exists pre post, l = pre ++ p :: post
                              /\ Forall (fun r => f r = false) pre /\ f p = true).
  { induction l as [|a l IH]; simpl; intros p l' H; [discriminate|].
    destruct (f a) eqn:Ea.
    - injection H as -> _. exists [], l. auto.
    - destruct (IH _ _ H) as (pre & post & -> & Hpre & Hp).
      exists (a :: pre), post. auto. }
  destruct (filter f (dropna rows)) as [|p l'] eqn:Hf; [discriminate|].
  intros [= <-].
  destruct (Hfirst _ _ _ Hf) as (pre & post & Hsplit & Hpre & Hp).
  assert (Hne : dropna rows <> []) by (rewrite Hsplit; now destruct pre).
  destruct (exists_last Hne) as (front & last_row & Hlast).
  exists pre, post, front, p, last_row.
  split; [exact Hsplit|]. split.
  { eapply Forall_impl; [|exact Hpre]. intros r Hr. now apply String.eqb_neq. }
  split; [now apply String.eqb_eq|]. split; [exact Hlast|].
  rewrite Hlast at 1 2 3. now rewrite !last_last.
Qed.

(** What is recorded when [p] is the first row on the purchase date and
    [last_row] the last row of the frame. *)
Lemma lump_simulate_found (rows : list RawRow) (allocation : Q) (purchase_date : string)
    (pre post front : list Row) (p last_row : Row) :
  dropna rows = pre ++ p :: post ->
  Forall (fun r => strftime_Ymd (Date r) <> purchase_date) pre ->
  strftime_Ymd (Date p) = purchase_date ->
  dropna rows = front ++ [last_row] ->
  LumpSum.simulate rows allocation purchase_date =
  LumpSum.Recorded
    (LumpSum.mkOutcome
       (allocation / Low p) (Low p) (Close last_row)
       (allocation / Low p * Close last_row - allocation)
       ((allocation / Low p * Close last_row - allocation) / allocation * 100)).
Proof.
  intros Hsplit Hpre Hp Hlast. unfold LumpSum.simulate.
  assert (Hlast' : forall d, last (dropna rows) d = last_row)
    by (intro d; rewrite Hlast; apply last_last).
  rewrite Hsplit at 1. rewrite filter_first_match.
  - now rewrite !Hlast'.
  - eapply Forall_impl; [|exact Hpre]. intros r Hr. now apply String.eqb_neq.
  - now apply String.eqb_eq.
Qed.

(** X1.  The profit percentage of a recorded instrument is the relative change
    from the purchase price to the selling price; it does not depend on the
    allocation, and the profit is the allocation times that change. *)
Theorem lump_profit_percentage_is_price_change :
  forall (rows : list RawRow) (allocation : Q) (purchase_date : string)
         (o : LumpSum.Outcome),
    LumpSum.simulate rows allocation purchase_date = LumpSum.Recorded o ->
    ~ allocation == 0 ->
    ~ LumpSum.purchase_price o == 0 ->
    LumpSum.profit_percentage o ==
      (LumpSum.selling_price o / LumpSum.purchase_price o - 1) * 100
    /\ LumpSum.profit o ==
       allocation * (LumpSum.selling_price o / LumpSum.purchase_price o - 1)
    /\ LumpSum.shares_bought o * LumpSum.purchase_price o == allocation.
Proof.
  intros rows a pd o Hsim Ha Hlow.
  destruct (lump_simulate_inv _ _ _ _ Hsim)
    as (pre & post & front & p & last_row & _ & _ & _ & _ & ->).
  simpl in *. repeat split; field; auto.
Qed.

Lemma lump_profit_percentage_is_price_change_witness :
  exists o,
    LumpSum.simulate example_series 100 "2024-03-01" = LumpSum.Recorded o
    /\ LumpSum.profit_percentage o == (110 / 90 - 1) * 100.
Proof.
  eexists. split; [reflexivity|].
  apply (lump_profit_percentage_is_price_change example_series 100 "2024-03-01"%string).
  - reflexivity.
  - vm_compute; discriminate.
  - vm_compute; discriminate.
Defined.

(** X2.  Scaling the allocation by a factor scales the shares and the profit by
    that factor and leaves the prices and the profit percentage unchanged. *)
Theorem lump_simulate_scales_with_allocation :
  forall (rows : list RawRow) (allocation k : Q) (purchase_date : string)
         (o : LumpSum.Outcome),
    LumpSum.simulate rows allocation purchase_date = LumpSum.Recorded o ->
    ~ k == 0 -> ~ allocation == 0 ->
    ~ LumpSum.purchase_price o == 0 ->
    exists o',
      LumpSum.simulate rows (k * allocation) purchase_date = LumpSum.Recorded o'
      /\ LumpSum.purchase_price o' = LumpSum.purchase_price o
      /\ LumpSum.selling_price o' = LumpSum.selling_price o
      /\ LumpSum.shares_bought o' == k * LumpSum.shares_bought o
      /\ LumpSum.profit o' == k * LumpSum.profit o
      /\ LumpSum.profit_percentage o' == LumpSum.profit_percentage o.
Proof.
  intros rows a k pd o Hsim Hk Ha Hlow.
  destruct (lump_simulate_inv _ _ _ _ Hsim)
    as (pre & post & front & p & last_row & Hsplit & Hpre & Hp & Hlast & ->).
  eexists. split.
  - apply (lump_simulate_found rows (k * a) pd pre post front p last_row);
      assumption.
  - simpl in *. repeat split; try reflexivity; field; auto.
Qed.

Lemma lump_simulate_scales_with_allocation_witness :
  exists o',
    LumpSum.simulate example_series (3 * 100) "2024-03-01" = LumpSum.Recorded o'
    /\ LumpSum.shares_bought o' == 3 * (100 / 90)
    /\ LumpSum.profit_percentage o' == (100 / 90 * 110 - 100) / 100 * 100.
Proof.
  destruct (lump_simulate_scales_with_allocation example_series 100 3 "2024-03-01"%string
              (LumpSum.mkOutcome (100 / 90) 90 110 (100 / 90 * 110 - 100)
                                 ((100 / 90 * 110 - 100) / 100 * 100)))
    as (o' & Hsim & _ & _ & Hshares & _ & Hpct).
  - reflexivity.
  - vm_compute; discriminate.
  - vm_compute; discriminate.
  - vm_compute; discriminate.
  - exists o'. auto.
Defined.


(** ** The selling point and the purchase date of the lump-sum script *)

(** X4.  When the rows of the file are in ascending date order, the selling
    price is the close of a row with the greatest date of the series. *)
Theorem lump_selling_price_latest_on_sorted_file :
  forall (rows : list RawRow) (allocation : Q) (purchase_date : string)
         (o : LumpSum.Outcome),
    LumpSum.simulate rows allocation purchase_date = LumpSum.Recorded o ->
    StronglySorted date_order (dropna rows) ->
    exists latest : Row,
      In latest (dropna rows)
      /\ (forall r, In r (dropna rows) -> ts_leb (Date r) (Date latest) = true)
      /\ LumpSum.selling_price o = Close latest.
Proof.
  intros rows a pd o Hsim Hsorted.
  destruct (lump_simulate_inv _ _ _ _ Hsim)
    as (pre & post & front & p & last_row & _ & _ & _ & Hlast & ->).
  exists last_row. rewrite Hlast in *. split; [|split].
  - apply in_or_app. right. now left.
  - intros r Hr. apply StronglySorted_last in Hsorted.
    apply in_app_or in Hr. destruct Hr as [Hr|[<-|[]]].
    + rewrite Forall_forall in Hsorted. now apply Hsorted.
    + apply ts_leb_refl.
  - reflexivity.
Qed.

Lemma lump_selling_price_latest_on_sorted_file_witness :
  exists latest : Row,
    In latest (dropna example_series)
    /\ (forall r, In r (dropna example_series) -> ts_leb (Date r) (Date latest) = true)
    /\ 110 = Close latest.
Proof.
  apply (lump_selling_price_latest_on_sorted_file example_series 100 "2024-03-01"%string
           (LumpSum.mkOutcome (100 / 90) 90 110 (100 / 90 * 110 - 100)
                              ((100 / 90 * 110 - 100) / 100 * 100))).
  - reflexivity.
  - repeat constructor.
Defined.

(** X5.  An instrument is skipped for its purchase date exactly when no row of
    its frame is dated [purchase_date]. *)
Theorem lump_skipped_iff_purchase_date_absent :
  forall (rows : list RawRow) (allocation : Q) (purchase_date : string),
    LumpSum.simulate rows allocation purchase_date =
    LumpSum.Skipped LumpSum.PurchaseDateNotFound
    <-> forall r, In r (dropna rows) -> strftime_Ymd (Date r) <> purchase_date.
Proof.
  intros rows a pd. split.
  - intros Hskip r Hr Hdate.
    assert (Hin : In r (filter (fun r => String.eqb (strftime_Ymd (Date r)) pd)
                               (dropna rows))).
    { apply filter_In. split; [exact Hr|]. now apply String.eqb_eq. }
    unfold LumpSum.simulate in Hskip.
    destruct (filter (fun r => String.eqb (strftime_Ymd (Date r)) pd) (dropna rows));
      [contradiction|discriminate].
  - intros Habs. apply lump_simulate_date_absent. now apply Forall_forall.
Qed.

(** ** The date format *)

Lemma digit_inj (a b : Z) : digit a = digit b -> (a mod 10 = b mod 10)%Z.
Proof.
  unfold digit. intros H.
  apply (f_equal nat_of_ascii) in H.
  rewrite !nat_ascii_embedding in H.
  - pose proof (Z.mod_pos_bound a 10). pose proof (Z.mod_pos_bound b 10). lia.
  - pose proof (Z.mod_pos_bound b 10). lia.
  - pose proof (Z.mod_pos_bound a 10). lia.
Qed.

Lemma strftime_Ymd_length (t : Timestamp) : String.length (strftime_Ymd t) = 10%nat.
Proof. reflexivity. Qed.

Lemma strftime_Ymd_same_day (t d : Timestamp) :
  valid_ts t -> valid_ts d ->
  (0 <= year t <= 9999)%Z -> (0 <= year d <= 9999)%Z ->
  String.eqb (strftime_Ymd t) (strftime_Ymd d) = same_day t d.
Proof.
  intros Ht Hd Hyt Hyd. apply eq_true_iff_eq. rewrite String.eqb_eq, same_day_iff.
  split.
  - intros H.
    assert (Hdim : forall y m, (days_in_month y m <= 31)%Z).
    { intros y m. unfold days_in_month.
      destruct (m =? 2)%Z; [destruct (is_leap y); lia|].
      destruct ((m =? 4) || (m =? 6) || (m =? 9) || (m =? 11))%Z; lia. }
    destruct Ht as (Hmt & Hdt & _), Hd as (Hmd & Hdd & _).
    pose proof (Hdim (year t) (month t)). pose proof (Hdim (year d) (month d)).
    destruct t as [y1 m1 d1 t1], d as [y2 m2 d2 t2]. simpl in *.
    unfold strftime_Ymd, pad4, pad2 in H. cbn [append year month day] in H.
    injection H as E1 E2 E3 E4 E5 E6 E7 E8.
    apply digit_inj in E1, E2, E3, E4, E5, E6, E7, E8.
    assert (y1 = y2)
      by (clear - E1 E2 E3 E4 Hyt Hyd; Z.to_euclidean_division_equations; lia).
    assert (m1 = m2)
      by (clear - E5 E6 Hmt Hmd; Z.to_euclidean_division_equations; lia).
    assert (d1 = d2) by (Z.to_euclidean_division_equations; lia).
    auto.
  - intros (Hy & Hm & Hdd). unfold strftime_Ymd. now rewrite Hy, Hm, Hdd.
Qed.

(** X6.  The comparison of formatted dates of line 65 is a comparison of
    calendar days.  For a purchase date written as the day [d], in a frame
    of calendar days with years of at most four digits, the rows selected
    are exactly the rows whose timestamp falls on the UTC day [d], at any
    time of that day: the instrument is skipped exactly when no row falls
    on [d], and otherwise it is bought at the low of the first row that
    does. *)
Theorem purchase_date_selects_the_rows_of_that_day :
  forall (rows : list RawRow) (allocation : Q) (d : Timestamp),
    valid_ts d -> (0 <= year d <= 9999)%Z ->
    Forall (fun r => valid_ts (Date r) /\ (0 <= year (Date r) <= 9999)%Z)
           (dropna rows) ->
    filter (fun r => String.eqb (strftime_Ymd (Date r)) (strftime_Ymd d)) (dropna rows)
    = filter (fun r => same_day (Date r) d) (dropna rows)
    /\ (LumpSum.simulate rows allocation (strftime_Ymd d) =
        LumpSum.Skipped LumpSum.PurchaseDateNotFound
        <-> forall r, In r (dropna rows) -> same_day (Date r) d = false)
    /\ (forall o,
           LumpSum.simulate rows allocation (strftime_Ymd d) = LumpSum.Recorded o ->
           exists pre p post,
             dropna rows = pre ++ p :: post
             /\ Forall (fun r => same_day (Date r) d = false) pre
             /\ same_day (Date p) d = true
             /\ LumpSum.purchase_price o = Low p).
Proof.
  intros rows a d Hd Hyd Hrows.
  assert (Heq : forall r, In r (dropna rows) ->
                          String.eqb (strftime_Ymd (Date r)) (strftime_Ymd d)
                          = same_day (Date r) d).
  { intros r Hr. rewrite Forall_forall in Hrows. destruct (Hrows r Hr) as [Hv Hy].
    now apply strftime_Ymd_same_day. }
  split; [|split].
  - apply filter_ext_in. exact Heq.
  - rewrite lump_skipped_iff_purchase_date_absent. split; intros H r Hr.
    + rewrite <- (Heq r Hr). apply String.eqb_neq. now apply H.
    + apply String.eqb_neq. rewrite (Heq r Hr). now apply H.
  - intros o Hsim.
    destruct (lump_simulate_inv _ _ _ _ Hsim)
      as (pre & post & front & p & last_row & Hsplit & Hpre & Hp & _ & ->).
    exists pre, p, post. split; [exact Hsplit|].
    assert (Hin : forall r, In r pre \/ r = p -> In r (dropna rows)).
    { intros r [Hr| ->]; rewrite Hsplit; apply in_or_app; [now left|right; now left]. }
    split; [|split; [|reflexivity]].
    + apply Forall_forall. intros r Hr. rewrite <- (Heq r) by auto.
      apply String.eqb_neq. rewrite Forall_forall in Hpre. now apply Hpre.
    + rewrite <- (Heq p) by auto. now apply String.eqb_eq.
Qed.

(** A file with a row late on 2024-02-29, a row early and a row late on
    2024-03-01, and a row on 2024-03-11. *)
Lemma purchase_date_selects_the_rows_of_that_day_witness :
  filter (fun r => String.eqb (strftime_Ymd (Date r)) (strftime_Ymd (midnight 2024 3 1)))
         (dropna [ mkRawRow (Some (at_hour 2024 2 29 23)) 80 81;
                   mkRawRow (Some (at_hour 2024 3 1 5)) 90 95;
                   mkRawRow (Some (at_hour 2024 3 11 5)) 99 98;
                   mkRawRow (Some (at_hour 2024 3 1 21)) 91 96 ])
  = [ mkRow (at_hour 2024 3 1 5) 90 95; mkRow (at_hour 2024 3 1 21) 91 96 ].
Proof.
  rewrite (proj1 (purchase_date_selects_the_rows_of_that_day
                    [ mkRawRow (Some (at_hour 2024 2 29 23)) 80 81;
                      mkRawRow (Some (at_hour 2024 3 1 5)) 90 95;
                      mkRawRow (Some (at_hour 2024 3 11 5)) 99 98;
                      mkRawRow (Some (at_hour 2024 3 1 21)) 91 96 ]
                    100 (midnight 2024 3 1)
                    ltac:(unfold valid_ts, days_in_month; vm_compute; intuition discriminate)
                    ltac:(simpl; lia)
                    ltac:(repeat constructor; vm_compute; intuition discriminate))).
  reflexivity.
Defined.

(** X7.  A purchase date that is not written with ten characters, as in
    2024-3-1, matches no row: the instrument is skipped whatever its file
    holds. *)
Theorem lump_malformed_purchase_date_never_found :
  forall (rows : list RawRow) (allocation : Q) (purchase_date : string),
    String.length purchase_date <> 10%nat ->
    LumpSum.simulate rows allocation purchase_date =
    LumpSum.Skipped LumpSum.PurchaseDateNotFound.
Proof.
  intros rows a pd Hlen. apply lump_simulate_date_absent.
  apply Forall_forall. intros r _ H. apply Hlen. rewrite <- H.
  apply strftime_Ymd_length.
Qed.

Lemma lump_malformed_purchase_date_never_found_witness :
  LumpSum.simulate example_series 100 "2024-3-1" =
  LumpSum.Skipped LumpSum.PurchaseDateNotFound.
Proof.
  apply lump_malformed_purchase_date_never_found. simpl. discriminate.
Defined.

(** ** The entries of a dictionary filled by a loop *)

Section CollectEntries.
Context {V : Type}.
Variable f : string -> option V.

Lemma dict_set_keys_in (d : dict V) (k : string) (v : V) :
  In k (dict_keys d) -> dict_keys (dict_set d k v) = dict_keys d.
Proof.
  induction d as [|[k0 v0] d IH]; simpl; [contradiction|].
  intros Hin. destruct (String.eqb k0 k) eqn:E; [reflexivity|].
  simpl. rewrite IH; [reflexivity|].
  destruct Hin as [->|Hin]; [|exact Hin]. now rewrite String.eqb_refl in E.
Qed.

Lemma dict_set_keys_NoDup (d : dict V) (k : string) (v : V) :
  NoDup (dict_keys d) -> NoDup (dict_keys (dict_set d k v)).
Proof.
  intros Hnd. destruct (in_dec string_dec k (dict_keys d)) as [Hin|Hnin].
  - now rewrite dict_set_keys_in.
  - rewrite dict_keys_set_new by exact Hnin.
    apply NoDup_app; [exact Hnd|repeat constructor; auto|].
    intros x Hx [<-|[]]. contradiction.
Qed.

Lemma collect_keys_NoDup (keys : list string) (d0 : dict V) :
  NoDup (dict_keys d0) -> NoDup (dict_keys (collect f keys d0)).
Proof.
  revert d0. induction keys as [|s keys IH]; intros d0 Hnd; [exact Hnd|].
  change (collect f (s :: keys) d0)
    with (collect f keys (match f s with Some v => dict_set d0 s v | None => d0 end)).
  apply IH. destruct (f s); [now apply dict_set_keys_NoDup|exact Hnd].
Qed.

Lemma dict_get_In (d : dict V) (k : string) (v : V) :
  NoDup (dict_keys d) -> (In (k, v) d <-> dict_get d k = Some v).
Proof.
  induction d as [|[k0 v0] d IH]; simpl; intros Hnd.
  - split; [contradiction|discriminate].
  - inversion Hnd as [|? ? Hk0 Hnd']; subst.
    destruct (String.eqb k0 k) eqn:E.
    + apply String.eqb_eq in E. subst k0. split.
      * intros [[= ->]|Hin]; [reflexivity|].
        exfalso. apply Hk0. apply (in_map fst) in Hin. exact Hin.
      * intros [= ->]. now left.
    + rewrite <- (IH Hnd'). split.
      * intros [[= -> _]|Hin]; [now rewrite String.eqb_refl in E|exact Hin].
      * intros Hin. now right.
Qed.

(** An entry of the filled dictionary is the value the loop computes for a
    key it visits. *)
Lemma collect_In (keys : list string) (k : string) (v : V) :
  In (k, v) (collect f keys []) <-> (In k keys /\ f k = Some v).
Proof.
  rewrite dict_get_In by (apply collect_keys_NoDup; constructor).
  destruct (in_dec string_dec k keys) as [Hin|Hnin].
  - rewrite (collect_get_in _ _ _ _ Hin). destruct (f k) as [v'|]; simpl.
    + split; [intros [= ->]; auto|intros [_ H]; exact H].
    + split; [discriminate|intros [_ H]; discriminate].
  - rewrite (collect_get_notin _ _ _ _ Hnin). simpl.
    split; [discriminate|intros [H _]; contradiction].
Qed.

Lemma collect_nil_iff (keys : list string) :
  collect f keys [] = [] <-> forall k, In k keys -> f k = None.
Proof.
  split.
  - intros Hnil k Hk. pose proof (collect_get_in f keys [] k Hk) as H.
    rewrite Hnil in H. simpl in H. now destruct (f k).
  - intros Hnone. destruct (collect f keys []) as [|[k v] d] eqn:E; [reflexivity|].
    assert (Hin : In (k, v) (collect f keys [])) by (rewrite E; now left).
    apply collect_In in Hin. destruct Hin as [Hk Hv].
    rewrite (Hnone k Hk) in Hv. discriminate.
Qed.

End CollectEntries.

(** ** Sums *)

Lemma fold_left_Qsum {A : Type} (g : A -> Q) (l : list A) (a : Q) :
  fold_left (fun acc x => acc + g x) l a == a + Qsum (map g l).
Proof.
  revert a. induction l as [|x l IH]; intros a; simpl.
  - ring.
  - rewrite IH. ring.
Qed.

Lemma Qsum_scaled {A : Type} (g h : A -> Q) (c : Q) (l : list A) :
  Forall (fun x => h x == g x * c) l ->
  Qsum (map h l) == Qsum (map g l) * c.
Proof.
  induction 1 as [|x l Hx _ IH]; simpl.
  - ring.
  - rewrite Hx, IH. ring.
Qed.

Lemma Qsum_app (l1 l2 : list Q) : Qsum (l1 ++ l2) == Qsum l1 + Qsum l2.
Proof.
  induction l1 as [|x l1 IH]; simpl; [ring|]. rewrite IH. ring.
Qed.

Lemma inject_Z_length_nonzero {A : Type} (x : A) (l : list A) :
  ~ inject_Z (Z.of_nat (List.length (x :: l))) == 0.
Proof. unfold Qeq. simpl. lia. Qed.

(** ** The lump-sum run as a whole *)

Lemma lump_run_finished_inv (dir : DataDir) (target_files : list string)
    (total_budget : Q) (purchase_date : string) (report : LumpSum.Report) :
  LumpSum.run dir target_files total_budget purchase_date = LumpSum.Finished report ->
  exists s rest,
    target_files = s :: rest /\ dir_has_files dir = true
    /\ LumpSum.results report =
       LumpSum.process_all dir total_budget
         (1 / inject_Z (Z.of_nat (List.length (s :: rest)))) purchase_date (s :: rest)
    /\ LumpSum.total_profit report = LumpSum.sum_profit (LumpSum.results report)
    /\ LumpSum.total_percent (LumpSum.results report) (LumpSum.total_profit report)
                             total_budget =
       Return (LumpSum.total_profit_percent report)
    /\ LumpSum.ranking report = LumpSum.sorted_results (LumpSum.results report).
Proof.
  destruct target_files as [|s rest]; [discriminate|].
  unfold LumpSum.run. rewrite (proj1 (split_percentage_nonempty s rest)).
  destruct (dir_has_files dir); [|discriminate]. cbn [negb].
  set (res := LumpSum.process_all dir total_budget _ purchase_date (s :: rest)).
  destruct (LumpSum.total_percent res (LumpSum.sum_profit res) total_budget)
    as [q|e] eqn:Hq; [|discriminate].
  intros [= <-]. exists s, rest. simpl. auto 10.
Qed.

(** X8.  The total percentage of the report is the sum of the profit
    percentages of the recorded instruments divided by the size of the
    whole basket: an instrument that was skipped counts as a percentage
    of 0, since its share of the budget stays in the divisor. *)
Theorem lump_total_percent_is_basket_mean :
  forall (dir : DataDir) (target_files : list string) (total_budget : Q)
         (purchase_date : string) (report : LumpSum.Report),
    LumpSum.run dir target_files total_budget purchase_date = LumpSum.Finished report ->
    ~ total_budget == 0 ->
    LumpSum.total_profit_percent report ==
    Qsum (map (fun kv => LumpSum.profit_percentage (snd kv)) (LumpSum.results report))
    / inject_Z (Z.of_nat (List.length target_files)).
Proof.
  intros dir tf B pd report Hrun HB.
  destruct (lump_run_finished_inv _ _ _ _ _ Hrun)
    as (s & rest & -> & Hdir & Hres & Htotal & Hpct & _).
  set (n := inject_Z (Z.of_nat (List.length (s :: rest)))) in *.
  assert (Hn : ~ n == 0) by apply inject_Z_length_nonzero.
  assert (Hentries :
            Forall (fun kv => LumpSum.profit_percentage (snd kv) ==
                              LumpSum.profit (snd kv) * (100 / (B * (1 / n))))
                   (LumpSum.results report)).
  { apply Forall_forall. intros [k o] Hin. rewrite Hres, lump_process_all_collect in Hin.
    apply collect_In in Hin. destruct Hin as [_ Hrec].
    unfold lump_recorded, LumpSum.process_stock in Hrec.
    destruct (csv_of dir k) as [| | |rows]; try discriminate.
    destruct (LumpSum.simulate rows (B * (1 / n)) pd) as [|o'] eqn:Hsim; [discriminate|].
    injection Hrec as ->.
    destruct (lump_simulate_inv _ _ _ _ Hsim)
      as (pre & post & front & p & last_row & _ & _ & _ & _ & ->).
    simpl. unfold Qdiv. ring. }
  rewrite (Qsum_scaled (fun kv => LumpSum.profit (snd kv)) _ _ _ Hentries).
  assert (Hsum : LumpSum.total_profit report ==
                 Qsum (map (fun kv => LumpSum.profit (snd kv)) (LumpSum.results report))).
  { rewrite Htotal. unfold LumpSum.sum_profit. rewrite fold_left_Qsum. ring. }
  rewrite <- Hsum. unfold LumpSum.total_percent, py_truediv in Hpct.
  destruct (LumpSum.results report) as [|kv res'].
  - destruct (Qeq_bool B 0) eqn:E; [apply Qeq_bool_iff in E; contradiction|].
    injection Hpct as <-. field; repeat split; auto.
  - injection Hpct as <-. field; repeat split; auto.
Qed.

Lemma lump_total_percent_is_basket_mean_witness :
  exists report,
    LumpSum.run example_dir ["AAPL"; "MSFT"; "TSLA"]%string 900 "2024-03-01" =
    LumpSum.Finished report
    /\ LumpSum.total_profit_percent report ==
       Qsum (map (fun kv => LumpSum.profit_percentage (snd kv)) (LumpSum.results report))
       / 3.
Proof.
  eexists. split; [reflexivity|].
  apply (lump_total_percent_is_basket_mean example_dir ["AAPL"; "MSFT"; "TSLA"]%string
           900 "2024-03-01"%string).
  - reflexivity.
  - vm_compute; discriminate.
Defined.

(** X9.  The lump-sum script stops with an exception in two cases only: the
    basket is empty (line 24), or the data directory has files, the total
    budget is 0 and no instrument of the basket was recorded (line 105,
    whose division has no guard).  The exception is [ZeroDivisionError]. *)
Theorem lump_run_crashes_iff :
  forall (dir : DataDir) (target_files : list string) (total_budget : Q)
         (purchase_date : string) (e : PyExn),
    LumpSum.run dir target_files total_budget purchase_date = LumpSum.Crashed e
    <->
    e = ZeroDivisionError
    /\ (target_files = []
        \/ (dir_has_files dir = true /\ total_budget == 0
            /\ forall stock, In stock target_files ->
                 lump_recorded
                   (LumpSum.process_stock dir total_budget
                      (1 / inject_Z (Z.of_nat (List.length target_files)))
                      purchase_date stock) = None)).
Proof.
  intros dir tf B pd e. destruct tf as [|s rest].
  - simpl. split.
    + intros [= <-]. auto.
    + intros [-> _]. reflexivity.
  - unfold LumpSum.run. rewrite (proj1 (split_percentage_nonempty s rest)).
    destruct (dir_has_files dir).
    + cbn [negb]. rewrite lump_process_all_collect.
      set (f := fun k => lump_recorded (LumpSum.process_stock dir B _ pd k)).
      pose proof (collect_nil_iff f (s :: rest)) as Hnil.
      unfold LumpSum.total_percent, py_truediv.
      destruct (collect f (s :: rest) []) as [|kv res] eqn:Hres.
      * destruct (Qeq_bool B 0) eqn:E.
        -- apply Qeq_bool_iff in E. split.
           ++ intros [= <-]. split; [reflexivity|]. right.
              split; [reflexivity|]. split; [exact E|]. now apply Hnil.
           ++ intros [-> _]. reflexivity.
        -- split; [discriminate|].
           intros [_ [H|(_ & H & _)]]; [discriminate|].
           apply Qeq_bool_iff in H. congruence.
      * split; [discriminate|].
        intros [_ [H|(_ & _ & H)]]; [discriminate|].
        apply Hnil in H. discriminate.
    + split; [discriminate|].
      intros [_ [H|(H & _)]]; discriminate.
Qed.

Lemma ranked_collect_rows {V : Type} (f : string -> option V)
    (before : string * V -> string * V -> bool) (keys : list string) :
  NoDup (map fst (stable_sort before (collect f keys [])))
  /\ forall k v, In (k, v) (stable_sort before (collect f keys [])) <->
                 (In k keys /\ f k = Some v).
Proof.
  pose proof (stable_sort_perm before (collect f keys [])) as Hperm. split.
  - apply (Permutation_NoDup (l := map fst (collect f keys []))).
    + apply Permutation_map. now symmetry.
    + apply (collect_keys_NoDup f keys []). constructor.
  - intros k v. rewrite <- collect_In. split.
    + apply (Permutation_in _ Hperm).
    + apply (Permutation_in _ (Permutation_sym Hperm)).
Qed.

(** X10.  The ranking of either report has one row for each instrument of the
    basket that was recorded, holding the outcome of that instrument, and no
    other row: names are not repeated, also when the basket repeats one. *)
Theorem ranking_rows_are_the_recorded_instruments :
  (forall (dir : DataDir) (total_budget split : Q) (purchase_date : string)
          (target_files : list string),
      let ranked :=
        LumpSum.sorted_results
          (LumpSum.process_all dir total_budget split purchase_date target_files) in
      NoDup (map fst ranked)
      /\ forall stock o,
           In (stock, o) ranked <->
           (In stock target_files
            /\ LumpSum.process_stock dir total_budget split purchase_date stock =
               LumpSum.Recorded o))
  /\ (forall (dir : DataDir) (monthly_budget split : Q) (sd : Timestamp)
             (target_files : list string),
         let ranked :=
           Recurring.sorted_results
             (fst (Recurring.process_all end_rollback dir monthly_budget split sd target_files)) in
         NoDup (map fst ranked)
         /\ forall stock o,
              In (stock, o) ranked <->
              (In stock target_files
               /\ fst (Recurring.process_stock end_rollback dir monthly_budget split sd stock) =
                  Recurring.Recorded o)).
Proof.
  split.
  - intros dir B split pd tf ranked. subst ranked.
    unfold LumpSum.sorted_results. rewrite lump_process_all_collect.
    split; [apply ranked_collect_rows|].
    intros stock o. rewrite (proj2 (ranked_collect_rows _ _ tf)).
    unfold lump_recorded.
    destruct (LumpSum.process_stock dir B split pd stock);
      split; intros [H1 H2]; split; congruence.
  - intros dir B split sd tf ranked. subst ranked.
    unfold Recurring.sorted_results. rewrite recurring_process_all_collect.
    split; [apply ranked_collect_rows|].
    intros stock o. rewrite (proj2 (ranked_collect_rows _ _ tf)).
    unfold recurring_recorded.
    destruct (fst (Recurring.process_stock end_rollback dir B split sd stock));
      split; intros [H1 H2]; split; congruence.
Qed.

(** ** Rows that do not parse, and the order of the rows *)

Lemma dropna_app (l1 l2 : list RawRow) : dropna (l1 ++ l2) = dropna l1 ++ dropna l2.
Proof.
  induction l1 as [|r l1 IH]; simpl; [reflexivity|].
  destruct (raw_Date r); simpl; now rewrite IH.
Qed.

(** X11.  A row whose date did not parse has no effect, wherever it stands in the
    file: both simulations give what they give without it. *)
Theorem unparsed_rows_are_ignored :
  forall (l1 l2 : list RawRow) (low close : Q),
    (forall allocation purchase_date,
        LumpSum.simulate (l1 ++ mkRawRow None low close :: l2) allocation purchase_date =
        LumpSum.simulate (l1 ++ l2) allocation purchase_date)
    /\ (forall monthly_budget split sd,
           Recurring.simulate end_rollback (l1 ++ mkRawRow None low close :: l2) monthly_budget split sd =
           Recurring.simulate end_rollback (l1 ++ l2) monthly_budget split sd).
Proof.
  intros l1 l2 low close.
  assert (H : dropna (l1 ++ mkRawRow None low close :: l2) = dropna (l1 ++ l2))
    by (now rewrite !dropna_app).
  split; intros; unfold LumpSum.simulate, Recurring.simulate; now rewrite H.
Qed.

Lemma dropna_perm (l1 l2 : list RawRow) :
  Permutation l1 l2 -> Permutation (dropna l1) (dropna l2).
Proof.
  induction 1 as [|r l1 l2 _ IH|r1 r2 l|l1 l2 l3 _ IH1 _ IH2]; simpl.
  - constructor.
  - destruct (raw_Date r); [now constructor|exact IH].
  - destruct (raw_Date r1), (raw_Date r2); try reflexivity. apply perm_swap.
  - now transitivity (dropna l2).
Qed.

(** Two arrangements of the same rows in date order are the same list when
    no two rows share a date. *)
Lemma sorted_by_date_unique (l1 l2 : list Row) :
  StronglySorted date_order l1 -> StronglySorted date_order l2 ->
  Permutation l1 l2 -> NoDup (map Date l1) -> l1 = l2.
Proof.
  intros H1. revert l2. induction H1 as [|a l1 Hs1 IH Ha]; intros l2 H2 Hperm Hnd.
  - apply Permutation_nil in Hperm. now subst.
  - destruct l2 as [|b l2]; [apply Permutation_sym, Permutation_nil in Hperm; discriminate|].
    inversion H2 as [|? ? Hs2 Hb]; subst.
    inversion Hnd as [|? ? Hna Hnd']; subst.
    assert (Hab : a = b).
    { assert (Hina : In a (b :: l2)) by (apply (Permutation_in _ Hperm); now left).
      assert (Hinb : In b (a :: l1))
        by (apply (Permutation_in _ (Permutation_sym Hperm)); now left).
      destruct Hina as [->|Hina]; [reflexivity|].
      destruct Hinb as [->|Hinb]; [reflexivity|].
      rewrite Forall_forall in Ha, Hb.
      pose proof (Ha _ Hinb) as Hle1. pose proof (Hb _ Hina) as Hle2.
      unfold date_order in *.
      exfalso. apply Hna. rewrite (ts_leb_antisym _ _ Hle1 Hle2).
      now apply in_map. }
    subst b. f_equal. apply IH; auto.
    now apply Permutation_cons_inv with a.
Qed.

(** X12.  The recurring simulation does not depend on the order of the rows in
    the file, provided no two rows carry the same date. *)
Theorem recurring_simulate_ignores_row_order :
  forall (rows rows' : list RawRow) (monthly_budget split : Q) (sd : Timestamp),
    Permutation rows rows' ->
    NoDup (map Date (dropna rows)) ->
    Recurring.simulate end_rollback rows' monthly_budget split sd =
    Recurring.simulate end_rollback rows monthly_budget split sd.
Proof.
  intros rows rows' mb split sd Hperm Hnd.
  assert (Hsort : sort_values_by_Date (dropna rows) = sort_values_by_Date (dropna rows')).
  { apply sorted_by_date_unique; try apply sort_values_sorted.
    - rewrite !sort_values_perm. now apply dropna_perm.
    - apply (Permutation_NoDup (l := map Date (dropna rows))); [|exact Hnd].
      apply Permutation_map. symmetry. apply sort_values_perm. }
  unfold Recurring.simulate. now rewrite Hsort.
Qed.

(** ** The final price and the skip of the recurring script *)

Lemma recurring_simulate_recorded_inv (rows : list RawRow) (monthly_budget split : Q)
    (sd : Timestamp) (o : Recurring.Outcome) (h : list Recurring.Purchase) :
  Recurring.simulate end_rollback rows monthly_budget split sd = (Recurring.Recorded o, h) ->
  exists (init : list Row) (last_row : Row),
    let data := Recurring.from_start sd (sort_values_by_Date (dropna rows)) in
    let acc := fold_left (Recurring.invest data monthly_budget split)
                         (Recurring.monthly_dates end_rollback data)
                         (Recurring.mkTotals 0 0 []) in
    data = init ++ [last_row]
    /\ h = Recurring.acc_history acc
    /\ Recurring.total_shares o = Recurring.acc_shares acc
    /\ Recurring.total_investment o = Recurring.acc_investment acc
    /\ Recurring.final_price o = Close last_row
    /\ Recurring.profit o =
       Recurring.acc_shares acc * Close last_row - Recurring.acc_investment acc.
Proof.
  intros Hsim. cbv zeta.
  destruct (Recurring.from_start sd (sort_values_by_Date (dropna rows)))
    as [|first rest] eqn:Hdata.
  - unfold Recurring.simulate in Hsim. rewrite Hdata in Hsim. discriminate.
  - destruct (simulate_recorded rows monthly_budget split sd first rest Hdata)
      as (last_row & pct & Hlast & _ & Hsim').
    cbv zeta in Hsim'. rewrite Hsim' in Hsim. injection Hsim as <- <-.
    destruct (iloc_last_Some _ _ Hlast) as [init Hinit].
    exists init, last_row. split; [exact Hinit|]. repeat split.
Qed.

(** X13.  Unlike the lump-sum script, the recurring script values an instrument
    at the close of a row with the greatest date of its series, whatever
    the order of the rows in the file. *)
Theorem recurring_final_price_is_latest_close :
  forall (rows : list RawRow) (monthly_budget split : Q) (sd : Timestamp)
         (o : Recurring.Outcome) (h : list Recurring.Purchase),
    Recurring.simulate end_rollback rows monthly_budget split sd = (Recurring.Recorded o, h) ->
    exists latest : Row,
      In latest (dropna rows)
      /\ (forall r, In r (dropna rows) -> ts_leb (Date r) (Date latest) = true)
      /\ Recurring.final_price o = Close latest.
Proof.
  intros rows mb split sd o h Hsim.
  destruct (recurring_simulate_recorded_inv _ _ _ _ _ _ Hsim)
    as (init & last_row & Hdata & _ & _ & _ & Hfinal & _).
  cbv zeta in Hdata.
  pose proof (sort_values_sorted (dropna rows)) as Hsorted.
  pose proof (sort_values_perm (dropna rows)) as Hperm.
  assert (Hlast_in : In last_row (Recurring.from_start sd (sort_values_by_Date (dropna rows))))
    by (rewrite Hdata; apply in_or_app; right; now left).
  apply filter_In in Hlast_in. destruct Hlast_in as [Hlast_in Hlast_sd].
  exists last_row. split; [now apply (Permutation_in _ Hperm)|]. split; [|exact Hfinal].
  intros r Hr. apply (Permutation_in _ (Permutation_sym Hperm)) in Hr.
  destruct (ts_leb sd (Date r)) eqn:Er.
  - assert (Hr' : In r (init ++ [last_row])).
    { rewrite <- Hdata. apply filter_In. auto. }
    pose proof (StronglySorted_filter _ (fun r => ts_leb sd (Date r)) _ Hsorted) as Hsf.
    unfold Recurring.from_start in Hdata. rewrite Hdata in Hsf.
    apply StronglySorted_last in Hsf.
    apply in_app_or in Hr'. destruct Hr' as [Hr'|[<-|[]]].
    + rewrite Forall_forall in Hsf. now apply Hsf.
    + apply ts_leb_refl.
  - ts_arith.
Qed.

(** X14.  An instrument is skipped for lack of data exactly when every row of
    its series is dated before [start_investment_date] (an empty file, or
    one without a parsable date, included). *)
Theorem recurring_skipped_iff_no_data_after_start :
  forall (rows : list RawRow) (monthly_budget split : Q) (sd : Timestamp),
    fst (Recurring.simulate end_rollback rows monthly_budget split sd) =
    Recurring.Skipped Recurring.NoDataAfterStart
    <-> forall r, In r (dropna rows) -> ts_ltb (Date r) sd = true.
Proof.
  intros rows mb split sd.
  pose proof (sort_values_perm (dropna rows)) as Hperm.
  destruct (Recurring.from_start sd (sort_values_by_Date (dropna rows)))
    as [|first rest] eqn:Hdata.
  - assert (Hsim : Recurring.simulate end_rollback rows mb split sd =
                   (Recurring.Skipped Recurring.NoDataAfterStart, []))
      by (unfold Recurring.simulate; now rewrite Hdata).
    rewrite Hsim. simpl.
    split; [|reflexivity]. intros _ r Hr.
    apply (Permutation_in _ (Permutation_sym Hperm)) in Hr.
    unfold ts_ltb. destruct (ts_leb sd (Date r)) eqn:E; [|reflexivity].
    assert (Hin : In r (Recurring.from_start sd (sort_values_by_Date (dropna rows))))
      by (apply filter_In; auto).
    rewrite Hdata in Hin. contradiction.
  - destruct (simulate_recorded rows mb split sd first rest Hdata)
      as (last_row & pct & _ & _ & Hsim).
    cbv zeta in Hsim. rewrite Hsim. simpl.
    split; [discriminate|]. intros Hall. exfalso.
    assert (Hin : In first (Recurring.from_start sd (sort_values_by_Date (dropna rows))))
      by (rewrite Hdata; now left).
    apply filter_In in Hin. destruct Hin as [Hin Hsd].
    apply (Permutation_in _ Hperm) in Hin. specialize (Hall _ Hin).
    unfold ts_ltb in Hall. rewrite Hsd in Hall. discriminate.
Qed.

(** ** The number of investments *)

(** The number of dates the loop yields from a month start: one per month
    up to the month of [end], the last one left out when it would fall on
    the day of [end] at a later time. *)
Lemma generate_range_length (fuel : nat) (cur end_date : Timestamp) :
  day cur = 1%Z -> (1 <= month cur <= 12)%Z ->
  (1 <= month end_date <= 12)%Z -> (1 <= day end_date)%Z ->
  (Recurring.month_index end_date - Recurring.month_index cur + 2 <= Z.of_nat fuel)%Z ->
  List.length (Recurring.generate_range fuel cur end_date) =
  Z.to_nat (Recurring.month_index end_date - Recurring.month_index cur
            + (if (1 <? day end_date)%Z || (time cur <=? time end_date)%Z
               then 1 else 0)).
Proof.
  intros Hd Hm He Hde. revert cur Hd Hm.
  induction fuel as [|fuel IH]; intros cur Hd Hm Hfuel.
  - simpl. destruct ((1 <? day end_date)%Z || (time cur <=? time end_date)%Z); lia.
  - simpl. destruct (ts_leb cur end_date) eqn:Ecur.
    + destruct (ts_eqb cur end_date) eqn:Eeq.
      * apply ts_eqb_iff in Eeq. subst end_date. simpl.
        rewrite (proj2 (Z.leb_le _ _) (Z.le_refl (time cur))), orb_true_r. lia.
      * assert (Hlt : ts_leb end_date cur = false).
        { destruct (ts_leb end_date cur) eqn:E; [|reflexivity].
          rewrite (ts_leb_antisym _ _ Ecur E), (proj2 (ts_eqb_iff _ _) eq_refl) in Eeq.
          discriminate. }
        simpl. rewrite IH.
        -- rewrite next_month_start_index, next_month_start_time by exact Hm.
           assert (1 <= Recurring.month_index end_date - Recurring.month_index cur
                        + (if (1 <? day end_date)%Z || (time cur <=? time end_date)%Z
                           then 1 else 0))%Z.
           { destruct (Z.ltb_spec 1 (day end_date));
               destruct (Z.leb_spec (time cur) (time end_date)); simpl;
               unfold Recurring.month_index; clear IH Ecur; ts_arith. }
           lia.
        -- apply next_month_start_day.
        -- now apply next_month_start_month.
        -- rewrite next_month_start_index by exact Hm. lia.
    + simpl.
      destruct (Z.ltb_spec 1 (day end_date));
        destruct (Z.leb_spec (time cur) (time end_date)); simpl;
        unfold Recurring.month_index; ts_arith.
Qed.

(** X15.  The number of investments in closed form.  For a frame that is not
    empty after the restriction to the start date, with [first] its first
    row and [last_row] its last, one investment is made per calendar month
    from the month start the date of [first] rolls forward to, to the month
    of [last_row]; the month of [last_row] is left out when the end of the
    range is on its first day at a time of day earlier than that of
    [first].  The invested total is that number of months times the
    allocation of a period.  When the time of day of [first] is not later
    than that of [last_row], as in a file of dates without times, no month
    is left out. *)
Theorem recurring_number_of_investments :
  forall (rows : list RawRow) (monthly_budget split : Q) (sd : Timestamp)
         (first last_row : Row) (rest : list Row),
    let data := Recurring.from_start sd (sort_values_by_Date (dropna rows)) in
    data = first :: rest ->
    Recurring.iloc_last data = Some last_row ->
    valid_ts (Date first) -> valid_ts (Date last_row) ->
    let range_end := Recurring.range_end end_rollback (Date first) (Date last_row) in
    let months :=
      Z.to_nat (Recurring.month_index (Date last_row)
                - Recurring.month_index (Recurring.rollforward (Date first))
                + (if (1 <? day range_end)%Z
                      || (time (Date first) <=? time (Date last_row))%Z
                   then 1 else 0)) in
    exists o h,
      Recurring.simulate end_rollback rows monthly_budget split sd = (Recurring.Recorded o, h)
      /\ List.length (Recurring.monthly_dates end_rollback data) = months
      /\ List.length h = months
      /\ Recurring.total_investment o ==
         inject_Z (Z.of_nat months) * (monthly_budget * split)
      /\ ((time (Date first) <= time (Date last_row))%Z ->
          months =
          Z.to_nat (Recurring.month_index (Date last_row)
                    - Recurring.month_index (Recurring.rollforward (Date first)) + 1)).
Proof.
  intros rows mb split sd first last_row rest data Hdata Hlast Hvf Hvl range_end months.
  assert (Hlen : List.length (Recurring.monthly_dates end_rollback data) = months).
  { rewrite Hdata in Hlast |- *. rewrite (monthly_dates_unfold _ _ _ Hlast).
    unfold Recurring.date_range_MS. fold range_end.
    destruct (rollforward_month_start _ Hvf) as (Hd & Hm & Hi).
    pose proof (valid_ts_day _ Hvl) as [Hem Hed].
    destruct (range_end_spec (Date first) (Date last_row)) as (Hri & Hrm & Hrt & _).
    fold range_end in Hri, Hrm, Hrt.
    rewrite generate_range_length; auto.
    - rewrite Hri, Hrt, rollforward_time. reflexivity.
    - now rewrite Hrm.
    - subst range_end. unfold Recurring.range_end, Recurring.rollback.
      destruct (Recurring.is_on_offset (Date first) && end_rollback);
        [destruct (Recurring.is_on_offset (Date last_row))|]; simpl; lia.
    - rewrite Hri. unfold Recurring.range_fuel. lia. }
  destruct (simulate_recorded rows mb split sd first rest Hdata)
    as (last_row' & pct & _ & _ & Hsim).
  cbv zeta in Hsim. fold data in Hdata. rewrite <- Hdata in Hsim.
  destruct (fold_invest_totals data mb split _ (monthly_dates_resolve data)
                               (Recurring.mkTotals 0 0 []))
    as [Hh Hi].
  cbn [Recurring.acc_history Recurring.acc_investment map app] in Hh, Hi.
  do 2 eexists. split; [exact Hsim|]. split; [exact Hlen|]. split; [|split].
  - rewrite <- Hlen. rewrite <- Hh at 2. now rewrite length_map.
  - cbn [Recurring.total_investment]. rewrite Hi, Hlen. ring.
  - intros Ht. subst months.
    rewrite (proj2 (Z.leb_le _ _) Ht), orb_true_r. reflexivity.
Qed.

(** ** The purchases of an instrument *)

Lemma available_row_In (data : list Row) (g : Timestamp) (row : Row) :
  Recurring.available_row data g = Some row ->
  In row data /\ ts_leb (Date row) g = true.
Proof.
  unfold Recurring.available_row. intros H.
  destruct (iloc_last_Some _ _ H) as [init Hinit].
  assert (Hin : In row (filter (fun r => ts_leb (Date r) g) data))
    by (rewrite Hinit; apply in_or_app; right; now left).
  now apply filter_In in Hin.
Qed.

(** What the loop over the investment dates adds to the running totals. *)
Lemma fold_invest_events (data : list Row) (monthly_budget split : Q)
    (dates : list Timestamp) (acc : Recurring.Totals) :
  exists events : list Recurring.Purchase,
    let acc' := fold_left (Recurring.invest data monthly_budget split) dates acc in
    Recurring.acc_history acc' = Recurring.acc_history acc ++ events
    /\ Recurring.acc_shares acc' ==
       Recurring.acc_shares acc + Qsum (map Recurring.purchase_shares events)
    /\ Recurring.acc_investment acc' ==
       Recurring.acc_investment acc
       + inject_Z (Z.of_nat (List.length events)) * (monthly_budget * split)
    /\ Forall (fun e =>
                 exists row,
                   Recurring.available_row data (Recurring.purchase_Date e) = Some row
                   /\ Recurring.purchase_Price e = Low row
                   /\ Recurring.purchase_shares e = monthly_budget * split / Low row)
              events.
Proof.
  revert acc. induction dates as [|g dates IH]; intros acc.
  - exists []. simpl. rewrite app_nil_r. repeat split; try constructor.
    + ring.
    + unfold inject_Z. ring.
  - simpl fold_left.
    destruct (IH (Recurring.invest data monthly_budget split acc g))
      as (events & Hh & Hs & Hi & Hall).
    cbv zeta in *.
    destruct (Recurring.available_row data g) as [row|] eqn:Hrow.
    + assert (Hstep : Recurring.invest data monthly_budget split acc g =
                      Recurring.mkTotals
                        (Recurring.acc_shares acc + monthly_budget * split / Low row)
                        (Recurring.acc_investment acc + monthly_budget * split)
                        (Recurring.acc_history acc
                           ++ [Recurring.mkPurchase
                                 g (monthly_budget * split / Low row) (Low row)]))
        by (unfold Recurring.invest; now rewrite Hrow).
      rewrite Hstep in *.
      exists (Recurring.mkPurchase g (monthly_budget * split / Low row) (Low row)
                :: events).
      cbn [Recurring.acc_history Recurring.acc_shares Recurring.acc_investment] in *.
      split; [now rewrite Hh, <- app_assoc|]. split; [|split].
      * rewrite Hs. simpl. ring.
      * rewrite Hi.
        change (List.length (Recurring.mkPurchase g (monthly_budget * split / Low row)
                                                  (Low row) :: events))
          with (S (List.length events)).
        rewrite inject_Z_succ. ring.
      * constructor; [|exact Hall]. exists row. simpl. auto.
    + assert (Hstep : Recurring.invest data monthly_budget split acc g = acc)
        by (unfold Recurring.invest; now rewrite Hrow).
      rewrite Hstep in *. exists events. auto.
Qed.

(** X16.  The history of an instrument accounts for its shares, and no purchase
    looks ahead: the total of shares is the sum of the shares of the
    recorded purchases, and each purchase buys allocation / price at the
    low of a row of the series dated from [start_investment_date] on and at
    or before the date of the purchase. *)
Theorem recurring_history_accounts_for_the_shares :
  forall (rows : list RawRow) (monthly_budget split : Q) (sd : Timestamp)
         (o : Recurring.Outcome) (h : list Recurring.Purchase),
    Recurring.simulate end_rollback rows monthly_budget split sd = (Recurring.Recorded o, h) ->
    Recurring.total_shares o == Qsum (map Recurring.purchase_shares h)
    /\ Forall (fun e =>
                 Recurring.purchase_shares e =
                 monthly_budget * split / Recurring.purchase_Price e
                 /\ exists row,
                      In row (dropna rows)
                      /\ Recurring.purchase_Price e = Low row
                      /\ ts_leb sd (Date row) = true
                      /\ ts_leb (Date row) (Recurring.purchase_Date e) = true)
              h.
Proof.
  intros rows mb split sd o h Hsim.
  destruct (recurring_simulate_recorded_inv _ _ _ _ _ _ Hsim)
    as (init & last_row & _ & Hh & Hshares & _).
  cbv zeta in Hh, Hshares.
  set (data := Recurring.from_start sd (sort_values_by_Date (dropna rows))) in *.
  destruct (fold_invest_events data mb split (Recurring.monthly_dates end_rollback data)
                               (Recurring.mkTotals 0 0 []))
    as (events & Hev & Hs & _ & Hall).
  cbv zeta in Hev, Hs. simpl in Hev, Hs. rewrite <- Hh in Hev. subst events.
  split.
  - rewrite Hshares, Hs. ring.
  - eapply Forall_impl; [|exact Hall]. intros e (row & Hrow & Hprice & Hsh).
    split; [now rewrite Hprice|].
    apply available_row_In in Hrow. destruct Hrow as [Hin Hle].
    apply filter_In in Hin. destruct Hin as [Hin Hsd].
    exists row. repeat split; auto.
    apply (Permutation_in _ (sort_values_perm (dropna rows))). exact Hin.
Qed.

(** X17.  The profit of an instrument is the sum of the gains of its purchases,
    each being the shares bought times the difference between the final
    price and the price paid (no purchase being at a price of 0). *)
Theorem recurring_profit_is_sum_of_gains :
  forall (rows : list RawRow) (monthly_budget split : Q) (sd : Timestamp)
         (o : Recurring.Outcome) (h : list Recurring.Purchase),
    Recurring.simulate end_rollback rows monthly_budget split sd = (Recurring.Recorded o, h) ->
    Forall (fun e => ~ Recurring.purchase_Price e == 0) h ->
    Recurring.profit o ==
    Qsum (map (fun e => Recurring.purchase_shares e
                        * (Recurring.final_price o - Recurring.purchase_Price e)) h).
Proof.
  intros rows mb split sd o h Hsim Hprices.
  destruct (recurring_simulate_recorded_inv _ _ _ _ _ _ Hsim)
    as (init & last_row & _ & Hh & Hshares & Hinv & Hfinal & Hprofit).
  cbv zeta in Hh, Hshares, Hinv, Hprofit.
  set (data := Recurring.from_start sd (sort_values_by_Date (dropna rows))) in *.
  destruct (fold_invest_events data mb split (Recurring.monthly_dates end_rollback data)
                               (Recurring.mkTotals 0 0 []))
    as (events & Hev & Hs & Hi & Hall).
  cbv zeta in Hev, Hs, Hi. simpl in Hev, Hs, Hi. rewrite <- Hh in Hev. subst events.
  rewrite Hprofit, Hs, Hi, Hfinal. clear - Hprices Hall.
  set (f := Close last_row).
  induction h as [|e h IH].
  - simpl. unfold inject_Z. ring.
  - inversion Hprices as [|? ? Hp Hprices']; subst.
    inversion Hall as [|? ? (row & _ & Hprice & Hsh) Hall']; subst.
    specialize (IH Hprices' Hall').
    change (List.length (e :: h)) with (S (List.length h)).
    rewrite inject_Z_succ. simpl map. simpl Qsum.
    rewrite <- IH. rewrite Hsh, <- Hprice. field. exact Hp.
Qed.

(** ** The history dictionary of a run *)

Lemma history_init_get (target_files : list string) (k : string) :
  dict_get (Recurring.history_init target_files) k =
  if in_dec string_dec k target_files then Some [] else None.
Proof.
  change (Recurring.history_init target_files)
    with (collect (fun _ : string => Some (@nil Recurring.Purchase)) target_files []).
  destruct (in_dec string_dec k target_files) as [Hin|Hnin].
  - now rewrite (collect_get_in _ _ _ _ Hin).
  - now rewrite (collect_get_notin _ _ _ _ Hnin).
Qed.

Lemma history_extend_get (h : dict (list Recurring.Purchase)) (s k : string)
    (events : list Recurring.Purchase) :
  dict_get (Recurring.history_extend h s events) k =
  if String.eqb s k then option_map (fun old => old ++ events) (dict_get h k)
  else dict_get h k.
Proof.
  unfold Recurring.history_extend.
  destruct (String.eqb s k) eqn:E.
  - apply String.eqb_eq in E. subst k.
    destruct (dict_get h s) as [old|] eqn:Hs; simpl.
    + now rewrite dict_get_set, String.eqb_refl.
    + exact Hs.
  - destruct (dict_get h s) as [old|]; [|reflexivity].
    now rewrite dict_get_set, E.
Qed.

Lemma process_all_history (dir : DataDir) (monthly_budget split : Q) (sd : Timestamp)
    (keys : list string) (res0 : dict Recurring.Outcome)
    (h0 : dict (list Recurring.Purchase)) (k : string) :
  dict_get
    (snd (fold_left
            (fun state stock_name =>
               let '(res, events) :=
                 Recurring.process_stock end_rollback dir monthly_budget split sd stock_name in
               let history := Recurring.history_extend (snd state) stock_name events in
               match res with
               | Recurring.Recorded o => (dict_set (fst state) stock_name o, history)
               | Recurring.Skipped _ => (fst state, history)
               end)
            keys (res0, h0))) k =
  option_map
    (fun old =>
       old ++ List.concat (repeat (snd (Recurring.process_stock end_rollback dir monthly_budget split sd k))
                             (count_occ string_dec keys k)))
    (dict_get h0 k).
Proof.
  revert res0 h0. induction keys as [|s keys IH]; intros res0 h0.
  - simpl. destruct (dict_get h0 k); simpl; [now rewrite app_nil_r|reflexivity].
  - cbn [fold_left].
    destruct (Recurring.process_stock end_rollback dir monthly_budget split sd s) as [res events] eqn:Hs.
    cbn [fst snd].
    assert (Hget : dict_get (Recurring.history_extend h0 s events) k =
                   if String.eqb s k
                   then option_map (fun old => old ++ events) (dict_get h0 k)
                   else dict_get h0 k) by apply history_extend_get.
    cbn [count_occ]. destruct (string_dec s k) as [->|Hne].
    + rewrite String.eqb_refl in Hget. rewrite Hs. cbn [snd repeat List.concat].
      destruct res; rewrite IH, Hget; destruct (dict_get h0 k); simpl;
        try reflexivity; rewrite Hs; simpl; now rewrite <- app_assoc.
    + apply String.eqb_neq in Hne. rewrite Hne in Hget.
      destruct res; rewrite IH, Hget; reflexivity.
Qed.

(** X18.  The history of a run has an entry for every name of the basket and for
    no other name.  The entry holds the purchases of the instrument, once
    for each time the basket lists the name: for a name listed once it is
    the history of its simulation (empty when the instrument was skipped),
    while a name listed twice has every purchase twice although [results]
    keeps one outcome for it. *)
Theorem recurring_investment_history_entries :
  forall (dir : DataDir) (monthly_budget split : Q) (sd : Timestamp)
         (target_files : list string) (stock : string),
    dict_get (snd (Recurring.process_all end_rollback dir monthly_budget split sd target_files)) stock =
    if in_dec string_dec stock target_files
    then Some (List.concat (repeat (snd (Recurring.process_stock end_rollback dir monthly_budget split sd stock))
                              (count_occ string_dec target_files stock)))
    else None.
Proof.
  intros dir mb split sd tf stock. unfold Recurring.process_all.
  rewrite process_all_history, history_init_get.
  now destruct (in_dec string_dec stock tf).
Qed.

(** ** Scaling the monthly budget *)

Lemma fold_invest_scales (data : list Row) (monthly_budget split k : Q)
    (dates : list Timestamp) (acc acc' : Recurring.Totals) :
  Recurring.acc_shares acc' == k * Recurring.acc_shares acc ->
  Recurring.acc_investment acc' == k * Recurring.acc_investment acc ->
  let r := fold_left (Recurring.invest data monthly_budget split) dates acc in
  let r' := fold_left (Recurring.invest data (k * monthly_budget) split) dates acc' in
  Recurring.acc_shares r' == k * Recurring.acc_shares r
  /\ Recurring.acc_investment r' == k * Recurring.acc_investment r.
Proof.
  revert acc acc'. induction dates as [|g dates IH]; intros acc acc' Hs Hi.
  - simpl. auto.
  - simpl fold_left. apply IH; unfold Recurring.invest;
      destruct (Recurring.available_row data g); simpl; auto.
    + rewrite Hs. unfold Qdiv. ring.
    + rewrite Hi. ring.
Qed.

Lemma percent_of_scales (p t p' t' k : Q) :
  0 < k -> p' == k * p -> t' == k * t ->
  exists q q',
    Recurring.percent_of p t = Return q /\ Recurring.percent_of p' t' = Return q'
    /\ q' == q.
Proof.
  intros Hk Hp Ht.
  assert (Hiff : 0 < t' <-> 0 < t).
  { rewrite Ht. split; intros H.
    - destruct (Qlt_le_dec 0 t) as [Hlt|Hle]; [exact Hlt|].
      exfalso. apply (Qlt_not_le _ _ H).
      setoid_replace 0 with (k * 0) by ring.
      apply Qmult_le_l; assumption.
    - now apply Qmult_lt_0_compat. }
  destruct (percent_of_guarded p t) as [(Hgt & Hne & H)|[Hgt H]];
    destruct (percent_of_guarded p' t') as [(Hgt' & Hne' & H')|[Hgt' H']];
    rewrite H, H'; do 2 eexists; (split; [reflexivity|]); (split; [reflexivity|]).
  - rewrite Hp, Ht. field. split; [exact Hne|].
    intros Hk0. rewrite Hk0 in Hk. discriminate.
  - exfalso. apply Qlt_bool_iff in Hgt. apply Hiff in Hgt.
    apply Qlt_bool_iff in Hgt. congruence.
  - exfalso. apply Qlt_bool_iff in Hgt'. apply Hiff in Hgt'.
    apply Qlt_bool_iff in Hgt'. congruence.
  - reflexivity.
Qed.

(** X19.  Multiplying the monthly budget by a positive factor multiplies the
    shares, the invested total and the profit of an instrument by that
    factor, and leaves its final price and its profit percentage
    unchanged. *)
Theorem recurring_simulate_scales_with_budget :
  forall (rows : list RawRow) (monthly_budget split k : Q) (sd : Timestamp)
         (o : Recurring.Outcome) (h : list Recurring.Purchase),
    Recurring.simulate end_rollback rows monthly_budget split sd = (Recurring.Recorded o, h) ->
    0 < k ->
    exists o' h',
      Recurring.simulate end_rollback rows (k * monthly_budget) split sd = (Recurring.Recorded o', h')
      /\ Recurring.total_shares o' == k * Recurring.total_shares o
      /\ Recurring.total_investment o' == k * Recurring.total_investment o
      /\ Recurring.final_price o' = Recurring.final_price o
      /\ Recurring.profit o' == k * Recurring.profit o
      /\ Recurring.profit_percentage o' == Recurring.profit_percentage o.
Proof.
  intros rows mb split k sd o h Hsim Hk.
  destruct (Recurring.from_start sd (sort_values_by_Date (dropna rows)))
    as [|first rest] eqn:Hdata.
  { unfold Recurring.simulate in Hsim. rewrite Hdata in Hsim. discriminate. }
  destruct (simulate_recorded rows mb split sd first rest Hdata)
    as (last_row & pct & Hlast & Hpct & Hsim1).
  destruct (simulate_recorded rows (k * mb) split sd first rest Hdata)
    as (last_row' & pct' & Hlast' & Hpct' & Hsim2).
  cbv zeta in *. rewrite Hlast in Hlast'. injection Hlast' as <-.
  rewrite Hsim1 in Hsim. injection Hsim as <- <-.
  destruct (fold_invest_scales (first :: rest) mb split k
              (Recurring.monthly_dates end_rollback (first :: rest))
              (Recurring.mkTotals 0 0 []) (Recurring.mkTotals 0 0 []))
    as [Hs Hi]; [simpl; ring|simpl; ring|].
  cbv zeta in Hs, Hi.
  do 2 eexists. split; [exact Hsim2|]. cbn [Recurring.total_shares
    Recurring.total_investment Recurring.final_price Recurring.profit
    Recurring.profit_percentage].
  split; [exact Hs|]. split; [exact Hi|]. split; [reflexivity|].
  assert (Hprofit :
            Recurring.acc_shares
              (fold_left (Recurring.invest (first :: rest) (k * mb) split)
                         (Recurring.monthly_dates end_rollback (first :: rest))
                         (Recurring.mkTotals 0 0 [])) * Close last_row
            - Recurring.acc_investment
                (fold_left (Recurring.invest (first :: rest) (k * mb) split)
                           (Recurring.monthly_dates end_rollback (first :: rest))
                           (Recurring.mkTotals 0 0 []))
            == k * (Recurring.acc_shares
                      (fold_left (Recurring.invest (first :: rest) mb split)
                                 (Recurring.monthly_dates end_rollback (first :: rest))
                                 (Recurring.mkTotals 0 0 [])) * Close last_row
                    - Recurring.acc_investment
                        (fold_left (Recurring.invest (first :: rest) mb split)
                                   (Recurring.monthly_dates end_rollback (first :: rest))
                                   (Recurring.mkTotals 0 0 []))))
    by (rewrite Hs, Hi; ring).
  split; [exact Hprofit|].
  destruct (percent_of_scales _ _ _ _ k Hk Hprofit Hi) as (q & q' & Hq & Hq' & Heq).
  rewrite Hq in Hpct. rewrite Hq' in Hpct'.
  injection Hpct as <-. injection Hpct' as <-. exact Heq.
Qed.

End BothPandasVersions.


(** * Instances

    The statements above hold for both behaviours of [pd.date_range]; the
    instances below are run with the behaviour of current pandas, which
    leaves the end of the range as it is. *)


(** Against C4 as stated.  In [two_offsets_history] the first row is at
    05:00 UTC on 2024-03-01 and the last at 04:00 UTC on 2024-07-01.  The
    first day of July lies between the calendar days of the two rows, both
    included, but the date generated for it would be 05:00 UTC on
    2024-07-01, after the last row: the investments stop in June, under
    either behaviour of pandas. *)
Lemma month_start_on_the_last_day_is_not_generated :
  let data :=
    Recurring.from_start example_start (sort_values_by_Date (dropna two_offsets_history)) in
  (forall end_rollback,
      Recurring.monthly_dates end_rollback data =
      [at_hour 2024 3 1 5; at_hour 2024 4 1 5; at_hour 2024 5 1 5; at_hour 2024 6 1 5])
  /\ option_map Date (hd_error data) = Some (at_hour 2024 3 1 5)
  /\ option_map Date (Recurring.iloc_last data) = Some (at_hour 2024 7 1 4)
  /\ day (midnight 2024 7 1) = 1%Z
  /\ day_leb (at_hour 2024 3 1 5) (midnight 2024 7 1) = true
  /\ day_leb (midnight 2024 7 1) (at_hour 2024 7 1 4) = true
  /\ (forall end_rollback g,
         In g (Recurring.monthly_dates end_rollback data) ->
         same_day g (midnight 2024 7 1) = false).
Proof.
  cbv zeta.
  assert (H : forall end_rollback,
             Recurring.monthly_dates end_rollback
               (Recurring.from_start example_start
                  (sort_values_by_Date (dropna two_offsets_history))) =
             [at_hour 2024 3 1 5; at_hour 2024 4 1 5; at_hour 2024 5 1 5;
              at_hour 2024 6 1 5])
    by (intros [|]; reflexivity).
  split; [exact H|]. do 5 (split; [reflexivity|]).
  intros b g Hg. rewrite H in Hg.
  repeat destruct Hg as [<-|Hg]; try reflexivity. contradiction.
Qed.

(** In [two_offsets_history] the date of 05:00 UTC on 2024-06-01 is
    generated and the date of 05:00 UTC on 2024-07-01, after the last row,
    is not. *)
Lemma recurring_monthly_dates_are_month_starts_witness :
  In (at_hour 2024 6 1 5)
     (Recurring.monthly_dates false
        (Recurring.from_start example_start
           (sort_values_by_Date (dropna two_offsets_history))))
  /\ ~ In (at_hour 2024 7 1 5)
          (Recurring.monthly_dates false
             (Recurring.from_start example_start
                (sort_values_by_Date (dropna two_offsets_history)))).
Proof.
  pose proof (proj1 (recurring_monthly_dates_are_month_starts false
                       two_offsets_history example_start
                       (mkRow (at_hour 2024 3 1 5) 90 95)
                       (mkRow (at_hour 2024 7 1 4) 105 110)
                       [mkRow (at_hour 2024 5 15 4) 100 104;
                        mkRow (at_hour 2024 7 1 4) 105 110]
                       eq_refl eq_refl
                       ltac:(vm_compute; intuition discriminate)
                       ltac:(vm_compute; intuition discriminate))) as H.
  split.
  - apply H. vm_compute. intuition discriminate.
  - intros Hin. apply H in Hin. destruct Hin as (_ & _ & _ & _ & Hle).
    discriminate.
Defined.

(** The file with a low of -5 on the purchase date is recorded with -20
    shares. *)
Lemma price_is_never_checked_witness :
  exists o,
    LumpSum.simulate negative_low_series 100 "2024-03-01" = LumpSum.Recorded o
    /\ LumpSum.purchase_price o = -5
    /\ LumpSum.shares_bought o < 0.
Proof.
  destruct (proj1 (price_is_never_checked false) negative_low_series 100 "2024-03-01"%string
              [] [mkRow (midnight 2024 6 1) 100 110]
              (mkRow (midnight 2024 3 1) (-5) 95))
    as (o & Ho & Hprice & _ & Hneg).
  - reflexivity.
  - constructor.
  - reflexivity.
  - vm_compute; discriminate.
  - exists o. split; [exact Ho|]. split; [exact Hprice|].
    apply Hneg; reflexivity.
Defined.

(** With no month start in the data range nothing is invested and the
    percentage is 0. *)
Lemma recurring_zero_investment_guard_witness :
  exists o h,
    Recurring.simulate false one_month_history 100 1 example_start = (Recurring.Recorded o, h)
    /\ Recurring.total_investment o == 0
    /\ Recurring.profit_percentage o = 0.
Proof.
  eexists. eexists. split; [reflexivity|]. split; [reflexivity|].
  apply (proj1 (proj2 (proj2 (recurring_zero_investment_guard false)))
           one_month_history 100 1 example_start _ [] eq_refl).
  reflexivity.
Defined.

(** [example_history] with 50 per period: three purchases, at the lows 90,
    100 and 100, and 150 invested. *)
Lemma recurring_every_generated_date_buys_witness :
  exists o h,
    Recurring.simulate false example_history 50 1 example_start = (Recurring.Recorded o, h)
    /\ map Recurring.purchase_Price h = [90; 100; 100]
    /\ List.length h = 3%nat
    /\ Recurring.total_investment o == 150
    /\ Recurring.final_price o = 110.
Proof.
  destruct (recurring_every_generated_date_buys false example_history 50 1 example_start
              (mkRow (midnight 2024 3 1) 90 95)
              [mkRow (midnight 2024 4 1) 100 102;
               mkRow (midnight 2024 4 30) 100 104;
               mkRow (midnight 2024 5 15) 105 110] eq_refl)
    as (_ & o & h & Hsim & _ & Hlen & Hinv & _).
  exists o, h. split; [exact Hsim|].
  vm_compute in Hsim. injection Hsim as <- <-.
  repeat split; reflexivity.
Defined.

Lemma recurring_simulate_ignores_row_order_witness :
  Recurring.simulate false (rev example_history) 50 1 example_start =
  Recurring.simulate false example_history 50 1 example_start.
Proof.
  apply (recurring_simulate_ignores_row_order false).
  - symmetry. apply Permutation_rev.
  - vm_compute. repeat constructor; simpl; intuition discriminate.
Defined.

Lemma recurring_final_price_is_latest_close_witness :
  exists latest : Row,
    In latest (dropna example_history)
    /\ (forall r, In r (dropna example_history) -> ts_leb (Date r) (Date latest) = true)
    /\ 110 = Close latest.
Proof.
  exact (recurring_final_price_is_latest_close false example_history 50 1 example_start
           _ _ eq_refl).
Defined.

Lemma recurring_history_accounts_for_the_shares_witness :
  exists o h,
    Recurring.simulate false example_history 50 1 example_start = (Recurring.Recorded o, h)
    /\ Recurring.total_shares o == Qsum (map Recurring.purchase_shares h).
Proof.
  do 2 eexists. split; [reflexivity|].
  apply (recurring_history_accounts_for_the_shares false example_history 50 1 example_start
           _ _ eq_refl).
Defined.

Lemma recurring_profit_is_sum_of_gains_witness :
  exists o h,
    Recurring.simulate false example_history 50 1 example_start = (Recurring.Recorded o, h)
    /\ Recurring.profit o ==
       50 * 1 / 90 * (110 - 90) + (50 * 1 / 100 * (110 - 100)
                                   + (50 * 1 / 100 * (110 - 100) + 0)).
Proof.
  do 2 eexists. split; [reflexivity|].
  apply (recurring_profit_is_sum_of_gains false example_history 50 1 example_start
           _ _ eq_refl).
  repeat constructor; vm_compute; discriminate.
Defined.

Lemma recurring_simulate_scales_with_budget_witness :
  exists o o' h h',
    Recurring.simulate false example_history 50 1 example_start = (Recurring.Recorded o, h)
    /\ Recurring.simulate false example_history (2 * 50) 1 example_start =
       (Recurring.Recorded o', h')
    /\ Recurring.profit o' == 2 * Recurring.profit o
    /\ Recurring.profit_percentage o' == Recurring.profit_percentage o.
Proof.
  destruct (recurring_simulate_scales_with_budget false example_history 50 1 2 example_start
              _ _ eq_refl)
    as (o' & h' & Hsim & _ & _ & _ & Hprofit & Hpct); [reflexivity|].
  do 4 eexists. split; [reflexivity|]. split; [exact Hsim|]. auto.
Defined.

(** In [two_offsets_history], from 05:00 UTC on 2024-03-01 to 04:00 UTC on
    2024-07-01, four investments are made: the month of July is left
    out. *)
Lemma recurring_number_of_investments_witness :
  exists o h,
    Recurring.simulate false two_offsets_history 50 1 example_start = (Recurring.Recorded o, h)
    /\ List.length h = 4%nat
    /\ Recurring.total_investment o == 4 * (50 * 1).
Proof.
  destruct (recurring_number_of_investments false two_offsets_history 50 1 example_start
              (mkRow (at_hour 2024 3 1 5) 90 95)
              (mkRow (at_hour 2024 7 1 4) 105 110)
              [mkRow (at_hour 2024 5 15 4) 100 104;
               mkRow (at_hour 2024 7 1 4) 105 110]
              eq_refl eq_refl
              ltac:(vm_compute; intuition discriminate)
              ltac:(vm_compute; intuition discriminate))
    as (o & h & Hsim & _ & Hlen & Hinv & _).
  exists o, h. split; [exact Hsim|]. split; [exact Hlen|exact Hinv].
Defined.

(** Against C6 as stated: with a low of -5 on the purchase date, both
    simulators divide the allocation by it and record the outcome. *)
Lemma nonpositive_price_is_not_rejected :
  exists (o : LumpSum.Outcome) (o' : Recurring.Outcome) (h : list Recurring.Purchase),
    LumpSum.simulate negative_low_series 100 "2024-03-01" = LumpSum.Recorded o
    /\ LumpSum.purchase_price o <= 0
    /\ LumpSum.shares_bought o == -20
    /\ Recurring.simulate false negative_low_series 100 1 (midnight 2024 3 1) =
       (Recurring.Recorded o', h)
    /\ map Recurring.purchase_Price h = [-5; -5; -5; 100]
    /\ map Recurring.purchase_shares h =
       [100 * 1 / -5; 100 * 1 / -5; 100 * 1 / -5; 100 * 1 / 100].
Proof.
  do 3 eexists. split; [reflexivity|]. simpl.
  split; [vm_compute; discriminate|].
  split; [reflexivity|].
  split; [reflexivity|].
  split; reflexivity.
Qed.
